(** * Static code analysis engine of project-analyzer-mcp

    A shallow embedding of [CodeAnalyzer] in its two incarnations:
    - [Legacy]   : [code_analyzer.py], the stand-alone module used by
                   [project_analyzer_server.py];
    - [Enhanced] : [src/analyzers/code_analyzer.py], the modular rewrite.

    Python values are modelled as follows: [str] is [string], [int] is [Z],
    the [dict] of signature records is a [gmap string _], the [set] of known
    names is a [gset string], and the two finding buckets are lists of
    strings in append order.  The host (file system, parser, module loader,
    character tables) is a record of oracles, [host]. *)

From Stdlib Require Import ZArith List String Ascii Lia Bool.
From stdpp Require Import base gmap strings list pretty.
Import ListNotations.
Open Scope string_scope.
Open Scope Z_scope.

(** ** Python string primitives used by the analyzer *)

Module Py.

(** [s.startswith(p)] *)
Definition startswith (s p : string) : bool := String.prefix p s.

(** [sub in s] on strings *)
Fixpoint contains (sub s : string) : bool :=
  String.prefix sub s
  || match s with
     | EmptyString => false
     | String _ s' => contains sub s'
     end.

(** [s.endswith(p)] *)
Fixpoint endswith (s p : string) : bool :=
  String.eqb s p
  || match s with
     | EmptyString => false
     | String _ s' => endswith s' p
     end.

Definition is_ascii_upper (c : ascii) : bool :=
  let n := nat_of_ascii c in (Nat.leb 65 n && Nat.leb n 90)%bool.

Definition is_ascii_lower (c : ascii) : bool :=
  let n := nat_of_ascii c in (Nat.leb 97 n && Nat.leb n 122)%bool.

Fixpoint any_char (p : ascii -> bool) (s : string) : bool :=
  match s with
  | EmptyString => false
  | String c s' => p c || any_char p s'
  end.

(** [s.isupper()] for a string of ASCII characters: at least one cased
    character and no lower-case one. *)
Definition isupper (s : string) : bool :=
  any_char is_ascii_upper s && negb (any_char is_ascii_lower s).

(** [sep.join(parts)] *)
Fixpoint join (sep : string) (parts : list string) : string :=
  match parts with
  | [] => ""
  | [p] => p
  | p :: rest => p +:+ sep +:+ join sep rest
  end.

(** [x in xs] for a list of strings *)
Definition mem (x : string) (xs : list string) : bool :=
  existsb (String.eqb x) xs.

(** [str(n)] for an [int] *)
Definition str_int (n : Z) : string := pretty n.

(** [str(x)] for an [Optional[int]] *)
Definition str_opt_int (n : option Z) : string :=
  match n with
  | Some k => str_int k
  | None => "None"
  end.

(** The part of [s] after its last ["/"] (CPython's [my_basename]). *)
Fixpoint basename_from (acc s : string) : string :=
  match s with
  | EmptyString => acc
  | String c s' =>
      if Ascii.eqb c "/"%char then basename_from s' s'
      else basename_from acc s'
  end.
Definition basename (s : string) : string := basename_from s s.

(** [str(e)] for a [SyntaxError] raised by [ast.parse(_, filename)]:
    CPython prints the message followed by the base name of the file and
    the line, when the line is known. *)
Definition str_SyntaxError (msg filename : string) (lineno : option Z) : string :=
  match lineno with
  | Some n => msg +:+ " (" +:+ basename filename +:+ ", line " +:+ str_int n +:+ ")"
  | None => msg +:+ " (" +:+ basename filename +:+ ")"
  end.

(** [name.rfind(".")], scanning from index [i]. *)
Fixpoint rfind_dot (s : string) (i : nat) (found : option nat) : option nat :=
  match s with
  | EmptyString => found
  | String c s' =>
      rfind_dot s' (S i) (if Ascii.eqb c "."%char then Some i else found)
  end.

(** [PurePath.stem] of a file name: the name without its last suffix. *)
Definition stem (name : string) : string :=
  match rfind_dot name 0 None with
  | Some i =>
      if (Nat.ltb 0 i && Nat.ltb i (String.length name - 1))%bool
      then String.substring 0 i name
      else name
  | None => name
  end.

End Py.

(** ** Syntax trees

    The constructors are the [ast] node classes the five passes inspect,
    with the fields that hold what they read and every field that holds
    child nodes; every other node class is [Other] with its child nodes in
    field order. *)

Set Warnings "-register-all".

Inductive expr_context := Load | Store | Del.

Record alias := Alias { alias_name : string; alias_asname : option string }.

(** [ast.arg]: one parameter, with its annotation when it has one. *)
Record arg_of (N : Type) := Arg { arg : string; annotation : option N }.
Arguments Arg {N}.
Arguments arg {N}.
Arguments annotation {N}.

(** [ast.arguments]: the parameters of a function by kind.  [defaults]
    holds the default values of the last positional parameters,
    positional-only ones included; [kw_defaults] has one entry per
    keyword-only parameter, [None] where it has no default. *)
Record arguments_of (N : Type) := Args {
  posonlyargs : list (arg_of N);
  args : list (arg_of N);
  vararg : option (arg_of N);
  kwonlyargs : list (arg_of N);
  kw_defaults : list (option N);
  kwarg : option (arg_of N);
  defaults : list N
}.
Arguments Args {N}.
Arguments posonlyargs {N}.
Arguments args {N}.
Arguments vararg {N}.
Arguments kwonlyargs {N}.
Arguments kw_defaults {N}.
Arguments kwarg {N}.
Arguments defaults {N}.

(** [type_params] is empty before Python 3.12, where the field does not
    exist. *)
Inductive node : Type :=
| Module (body : list node)
| Import (names : list alias)
| ImportFrom (module : option string) (names : list alias)
| Assign (targets : list node) (value : node)
| FunctionDef (name : string) (args : arguments_of node) (body : list node)
              (decorator_list : list node) (returns : option node)
              (type_params : list node) (lineno : Z)
| ClassDef (name : string) (bases : list node) (keywords : list node)
           (body : list node) (decorator_list : list node)
           (type_params : list node) (lineno : Z)
| Call (func : node) (args : list node) (keywords : list node) (lineno : Z)
| Name (id : string) (ctx : expr_context) (lineno : Z)
| Other (children : list node).

Definition arguments : Type := arguments_of node.

(** A leaf the passes never look at: an [alias] or a context node. *)
Definition leaf : node := Other [].

(** The nodes of an optional field. *)
Definition opt_list {A : Type} (o : option A) : list A :=
  match o with
  | Some x => [x]
  | None => []
  end.

(** An [ast.arg] node as the walk sees it: its annotation below it. *)
Definition arg_node (a : arg_of node) : node := Other (opt_list (annotation a)).

(** An [ast.arguments] node as the walk sees it: the parameters and the
    default values in field order. *)
Definition arguments_node (a : arguments) : node :=
  Other (map arg_node (posonlyargs a) ++ map arg_node (args a)
         ++ map arg_node (opt_list (vararg a))
         ++ map arg_node (kwonlyargs a)
         ++ flat_map opt_list (kw_defaults a)
         ++ map arg_node (opt_list (kwarg a))
         ++ defaults a).

(** Parameters without annotations, by name. *)
Definition plain_args (names : list string) : list (arg_of node) :=
  map (fun x => Arg x None) names.

(** [def f(a, b, ...)] with [defaults] for the last parameters and no
    other kind of parameter. *)
Definition positional (names : list string) (defaults : list node) : arguments :=
  Args [] (plain_args names) None [] [] None defaults.

(** [ast.iter_child_nodes]: the child nodes in [_fields] order. *)
Definition iter_child_nodes (n : node) : list node :=
  match n with
  | Module body => body
  | Import names => map (fun _ => leaf) names
  | ImportFrom _ names => map (fun _ => leaf) names
  | Assign targets value => targets ++ [value]
  | FunctionDef _ args body decorator_list returns type_params _ =>
      arguments_node args
      :: body ++ decorator_list ++ opt_list returns ++ type_params
  | ClassDef _ bases keywords body decorator_list type_params _ =>
      bases ++ keywords ++ body ++ decorator_list ++ type_params
  | Call func args keywords _ => func :: args ++ keywords
  | Name _ _ _ => [leaf]
  | Other children => children
  end.

(** Number of nodes [ast.walk] yields below and including [n]. *)
Fixpoint node_count (n : node) : nat :=
  let forest := fix forest (l : list node) : nat :=
    match l with
    | [] => O
    | x :: l' => (node_count x + forest l')%nat
    end in
  let opt := fun (o : option node) =>
    match o with
    | Some x => node_count x
    | None => O
    end in
  let one := fun (a : arg_of node) => S (opt (annotation a)) in
  let several := fix several (l : list (arg_of node)) : nat :=
    match l with
    | [] => O
    | a :: l' => (one a + several l')%nat
    end in
  let maybe := fun (o : option (arg_of node)) =>
    match o with
    | Some a => one a
    | None => O
    end in
  let opts := fix opts (l : list (option node)) : nat :=
    match l with
    | [] => O
    | o :: l' => (opt o + opts l')%nat
    end in
  match n with
  | Module body => S (forest body)
  | Import names => S (length names)
  | ImportFrom _ names => S (length names)
  | Assign targets value => S (forest targets + node_count value)
  | FunctionDef _ a body decorator_list returns type_params _ =>
      S (S (several (posonlyargs a) + several (args a) + maybe (vararg a)
            + several (kwonlyargs a) + opts (kw_defaults a) + maybe (kwarg a)
            + forest (defaults a))
         + forest body + forest decorator_list + opt returns
         + forest type_params)
  | ClassDef _ bases keywords body decorator_list type_params _ =>
      S (forest bases + forest keywords + forest body + forest decorator_list
         + forest type_params)
  | Call func args keywords _ =>
      S (node_count func + forest args + forest keywords)
  | Name _ _ _ => 2%nat
  | Other children => S (forest children)
  end.

Definition forest_count (l : list node) : nat :=
  fold_right (fun x acc => (node_count x + acc)%nat) O l.

(** [ast.walk]: a queue seeded with the root; each step pops the head,
    appends its children at the back and yields it. *)
Fixpoint walk_queue (fuel : nat) (todo : list node) : list node :=
  match fuel, todo with
  | S fuel', n :: todo' => n :: walk_queue fuel' (todo' ++ iter_child_nodes n)
  | _, _ => []
  end.

Definition walk (tree : node) : list node :=
  walk_queue (node_count tree) [tree].

(** The nodes [k] levels below [nodes], from left to right: with
    [nodes = [tree]], the nodes of the tree at nesting depth [k]. *)
Fixpoint level (k : nat) (nodes : list node) : list node :=
  match k with
  | O => nodes
  | S k' => level k' (flat_map iter_child_nodes nodes)
  end.

(** The nodes fewer than [k] levels below [nodes], level by level. *)
Fixpoint above (k : nat) (nodes : list node) : list node :=
  match k with
  | O => []
  | S k' => nodes ++ above k' (flat_map iter_child_nodes nodes)
  end.

(** ** The host: file system, parser and module loader *)

(** Result of [open(p, "r", encoding="utf-8").read()]. *)
Inductive read_outcome :=
| ReadOk (content : string)
| ReadUnicodeDecodeError (str_e : string)
| ReadException (str_e : string).

(** Result of [ast.parse(content)]. *)
Inductive parse_outcome :=
| ParseOk (tree : node)
| ParseSyntaxError (lineno : option Z) (msg : string)
| ParseException (str_e : string).

(** How an attempt [importlib.import_module(name)] ends.  Importing runs
    the module's top-level code, so besides [ImportError] and the other
    subclasses of [Exception] it can raise a [BaseException] that no
    [except Exception] clause catches ([SystemExit], [KeyboardInterrupt]).
    An import that never ends, or ends the process, is no attempt of the
    model. *)
Inductive import_outcome :=
| Imported
| RaisesImportError (str_e : string)
| RaisesException (str_e : string)
| RaisesBaseException (str_e : string).

(** A directory listing in [os.scandir] order. *)
Inductive entry :=
| File (name : string)
| Dir (name : string) (entries : list entry).

Record host := Host {
  (** what lies under the project root; [None] when the root cannot be listed *)
  listing : option (list entry);
  read_text : string -> read_outcome;
  ast_parse : string -> parse_outcome;
  (** the loader, given [sys.path] and the dotted module name *)
  import_module : list string -> string -> import_outcome;
  (** [sys.path] when the attempt is over: the top-level code the import
      runs can change it ([sys.path.insert(0, ...)] in a script) *)
  path_after_import : list string -> string -> list string;
  (** [s.isupper()], which follows the character tables of the
      interpreter; on ASCII strings it is [Py.isupper] *)
  str_isupper : string -> bool
}.

(** The exceptions a per-file [try] block of a pass can see. *)
Inductive exn :=
| SyntaxError (lineno : option Z) (msg : string)
| UnicodeDecodeError (str_e : string)
| OtherException (str_e : string).

(** [str(e)], for a parse run under the given file name. *)
Definition str_exn (filename : string) (e : exn) : string :=
  match e with
  | SyntaxError lineno msg => Py.str_SyntaxError msg filename lineno
  | UnicodeDecodeError s => s
  | OtherException s => s
  end.

(** The three lines every pass starts with:
    [with open(file_path) as f: content = f.read()] and [ast.parse(content)]. *)
Definition parse_file (h : host) (file_str : string) : node + exn :=
  match read_text h file_str with
  | ReadOk content =>
      match ast_parse h content with
      | ParseOk tree => inl tree
      | ParseSyntaxError lineno msg => inr (SyntaxError lineno msg)
      | ParseException s => inr (OtherException s)
      end
  | ReadUnicodeDecodeError s => inr (UnicodeDecodeError s)
  | ReadException s => inr (OtherException s)
  end.

(** A discovered file, as its path components below the project root. *)
Definition path := list string.

(** [str(file_path)] for [file_path = self.project_root / ...parts], with
    [project_root] standing for [str(self.project_root)]: [pathlib] prints
    no [./] in front of a path below the current directory and no second
    slash after a root that ends in one. *)
Definition str_path (project_root : string) (p : path) : string :=
  if String.eqb project_root "." then Py.join "/" p
  else if Py.endswith project_root "/" then project_root +:+ Py.join "/" p
  else project_root +:+ "/" +:+ Py.join "/" p.

(** The [files] and [dirs] lists [os.walk] builds for one directory. *)
Definition file_names (entries : list entry) : list string :=
  flat_map (fun e => match e with File f => [f] | Dir _ _ => [] end) entries.

Definition entry_name (e : entry) : string :=
  match e with File f => f | Dir d _ => d end.

(** [os.walk(top)], top-down: each directory with its file names, then the
    sub-directories that [keep] retains (the caller prunes [dirs] in place
    before the walk descends).  Errors listing a directory are ignored, so
    an unreadable directory is one with no entries. *)
Fixpoint os_walk_dir (keep : string -> bool) (root : path) (e : entry)
  : list (path * list string) :=
  match e with
  | File _ => []
  | Dir d sub =>
      if keep d
      then ((root ++ [d])%list, file_names sub)
           :: flat_map (os_walk_dir keep (root ++ [d])%list) sub
      else []
  end.

Definition os_walk (keep : string -> bool) (top : list entry)
  : list (path * list string) :=
  ([], file_names top) :: flat_map (os_walk_dir keep []) top.

(** [Path.rglob(pattern)]: every entry, file or directory, whose name
    matches, directory by directory from the top. *)
Definition glob_dir (matches : string -> bool) (root : path)
  (entries : list entry) : list path :=
  flat_map (fun e =>
    if matches (entry_name e) then [(root ++ [entry_name e])%list] else [])
    entries.

Fixpoint rglob_dir (matches : string -> bool) (root : path) (e : entry)
  : list path :=
  match e with
  | File _ => []
  | Dir d sub =>
      (glob_dir matches (root ++ [d])%list sub
       ++ flat_map (rglob_dir matches (root ++ [d])%list) sub)%list
  end.

Definition rglob (matches : string -> bool) (top : list entry) : list path :=
  (glob_dir matches [] top ++ flat_map (rglob_dir matches []) top)%list.

(** ** The analyzer object and its findings *)

Record analyzer := Analyzer {
  project_root : string;
  errors : list string;
  warnings : list string
}.

(** [self.errors.append(msg)] *)
Definition add_error (a : analyzer) (msg : string) : analyzer :=
  Analyzer (project_root a) (errors a ++ [msg]) (warnings a).

(** [self.warnings.append(msg)] *)
Definition add_warning (a : analyzer) (msg : string) : analyzer :=
  Analyzer (project_root a) (errors a) (warnings a ++ [msg]).

(** [self.errors = []; self.warnings = []] *)
Definition reset (a : analyzer) : analyzer :=
  Analyzer (project_root a) [] [].

(** The returned mapping [{"errors": self.errors, "warnings": self.warnings}]. *)
Record result := Result {
  res_errors : list string;
  res_warnings : list string
}.

Definition result_of (a : analyzer) : result :=
  Result (errors a) (warnings a).

(** The process state a pass works on: the analyzer object and [sys.path]. *)
Definition pstate : Type := analyzer * list string.

(** A [for] loop whose body may let an exception escape: the loop stops
    there, with the state reached and the exception ([str(e)]). *)
Fixpoint for_each {X : Type} (body : pstate -> X -> pstate * option string)
  (s : pstate) (xs : list X) : pstate * option string :=
  match xs with
  | [] => (s, None)
  | x :: xs' =>
      match body s x with
      | (s', None) => for_each body s' xs'
      | (s', Some e) => (s', Some e)
      end
  end.

(** A call of [analyze_all] or [analyze_specific] either returns the
    mapping or lets an exception escape. *)
Inductive outcome :=
| Returns (r : result)
| Raises (str_e : string).

(** ** Pass kernels shared by the two analyzers

    [_check_parameter_mismatches], [_check_undefined_variables] and
    [_check_class_method_signatures] have the same body in both files up to
    the wording of a few messages; the loops over one syntax tree are
    written once here. *)

(** *** Call/definition arity *)

Module Arity.

(** The value stored in [function_defs[node.name]]. *)
Record func_def := FuncDef {
  required_args : Z;
  total_args : Z;
  line : Z
}.

(** The tuple appended to [function_calls]. *)
Record call := CallSite {
  call_name : string;
  call_args : Z;
  call_kwargs : Z;
  call_line : Z
}.

Definition len {A} (l : list A) : Z := Z.of_nat (length l).

(** The record built for one [ast.FunctionDef] from [node.args]. *)
Definition signature (a : arguments) (lineno : Z) : func_def :=
  (* Count parameters *)
  let args_count := len (args a) in
  (* Subtract 'self' for methods in classes *)
  let args_count :=
    if (0 <? args_count)
       && match args a with a0 :: _ => String.eqb (arg a0) "self" | [] => false end
    then args_count - 1 else args_count in
  let defaults_count := len (defaults a) in
  let required_args := args_count - defaults_count in
  FuncDef required_args args_count lineno.

(** One iteration of [for node in ast.walk(tree)]. *)
Definition collect_node (acc : list call * gmap string func_def) (n : node)
  : list call * gmap string func_def :=
  let '(function_calls, function_defs) := acc in
  match n with
  | Call (Name func_name _ _) args keywords lineno =>
      ((function_calls ++ [CallSite func_name (len args) (len keywords) lineno])%list,
       function_defs)
  | FunctionDef name a _ _ _ _ lineno =>
      (function_calls, <[name := signature a lineno]> function_defs)
  | _ => acc
  end.

Definition collect (nodes : list node) : list call * gmap string func_def :=
  fold_left collect_node nodes ([], ∅).

Definition too_few (file : string) (c : call) (d : func_def) : string :=
  "PARAMETER ERROR in " +:+ file +:+ ":" +:+ Py.str_int (call_line c) +:+ ": "
  +:+ "Function '" +:+ call_name c +:+ "' requires "
  +:+ Py.str_int (required_args d) +:+ " args "
  +:+ "but " +:+ Py.str_int (call_args c + call_kwargs c) +:+ " provided".

(** [verb] is ["takes"] in the legacy file and ["accepts max"] in the
    rewrite. *)
Definition too_many (verb file : string) (c : call) (d : func_def) : string :=
  "PARAMETER ERROR in " +:+ file +:+ ":" +:+ Py.str_int (call_line c) +:+ ": "
  +:+ "Function '" +:+ call_name c +:+ "' " +:+ verb +:+ " "
  +:+ Py.str_int (total_args d) +:+ " args "
  +:+ "but " +:+ Py.str_int (call_args c + call_kwargs c) +:+ " provided".

(** One iteration of the loop over [function_calls]. *)
Definition check_call (verb file : string) (function_defs : gmap string func_def)
  (a : analyzer) (c : call) : analyzer :=
  match function_defs !! call_name c with
  | Some d =>
      let total_provided := call_args c + call_kwargs c in
      if total_provided <? required_args d then
        add_error a (too_few file c d)
      else if total_provided >? total_args d then
        add_error a (too_many verb file c d)
      else a
  | None => a
  end.

(** The body of the per-file [try] once the tree is parsed. *)
Definition check_tree (verb file : string) (a : analyzer) (tree : node)
  : analyzer :=
  let '(function_calls, function_defs) := collect (walk tree) in
  fold_left (check_call verb file function_defs) function_calls a.

End Arity.

(** *** Undefined names *)

Module Undefined.

(** [alias.asname or alias.name] *)
Definition bound_alias (al : alias) : string :=
  match alias_asname al with
  | Some s => if String.eqb s "" then alias_name al else s
  | None => alias_name al
  end.

(** [defined_names.add(x)] for each [x] of a list. *)
Definition add_all (xs : list string) (defined_names : gset string)
  : gset string :=
  fold_left (fun s x => s ∪ {[x]}) xs defined_names.

(** The targets of an assignment that are plain names. *)
Definition name_targets (targets : list node) : list string :=
  flat_map (fun t => match t with Name id _ _ => [id] | _ => [] end) targets.

Definition undefined_warning (file : string) (lineno : Z) (id : string)
  : string :=
  "UNDEFINED VARIABLE in " +:+ file +:+ ":" +:+ Py.str_int lineno +:+ ": "
  +:+ "'" +:+ id +:+ "' may be undefined".

(** One iteration of [for node in ast.walk(tree)]: the known names are
    extended and the uses are checked in the same loop. *)
Definition visit (isupper : string -> bool) (file : string)
  (st : gset string * analyzer) (n : node) : gset string * analyzer :=
  let '(defined_names, a) := st in
  match n with
  | Import names => (add_all (map bound_alias names) defined_names, a)
  | ImportFrom _ names => (add_all (map bound_alias names) defined_names, a)
  | Assign targets _ => (add_all (name_targets targets) defined_names, a)
  | FunctionDef name _ _ _ _ _ _ => (defined_names ∪ {[name]}, a)
  | ClassDef name _ _ _ _ _ _ => (defined_names ∪ {[name]}, a)
  | Name id Load lineno =>
      if bool_decide (id ∈ defined_names) then st
      else if negb (Py.startswith id "_" || isupper id)
      then (defined_names, add_warning a (undefined_warning file lineno id))
      else st
  | _ => st
  end.

(** The body of the per-file [try] once the tree is parsed; [seed] is
    the initial content of [defined_names]. *)
Definition check_tree (isupper : string -> bool) (seed : gset string)
  (file : string) (a : analyzer) (tree : node) : analyzer :=
  snd (fold_left (visit isupper file) (walk tree) (seed, a)).

End Undefined.

(** *** Method signatures *)

Module Methods.

(** [any(isinstance(dec, ast.Name) and dec.id in [...] for dec in ...)] *)
Definition has_decorator (decorator_list : list node) : bool :=
  existsb (fun dec =>
    match dec with
    | Name id _ _ => Py.mem id ["staticmethod"; "classmethod"]
    | _ => false
    end) decorator_list.

Definition method_error (file : string) (lineno : Z) (name : string) : string :=
  "METHOD ERROR in " +:+ file +:+ ":" +:+ Py.str_int lineno +:+ ": "
  +:+ "Method '" +:+ name +:+ "' should have 'self' as first parameter".

(** One iteration of [for item in node.body]. *)
Definition check_item (file : string) (a : analyzer) (item : node) : analyzer :=
  match item with
  | FunctionDef name item_args _ decorator_list _ _ lineno =>
      match args item_args with
      | a0 :: _ =>
          let first_arg := arg a0 in
          if negb (String.eqb first_arg "self") && negb (Py.startswith name "_")
          then
            (* Skip static methods and class methods *)
            if negb (has_decorator decorator_list)
            then add_error a (method_error file lineno name)
            else a
          else a
      | [] =>
          (* Method with no parameters *)
          add_error a (method_error file lineno name)
      end
  | _ => a
  end.

(** One iteration of [for node in ast.walk(tree)]. *)
Definition check_node (file : string) (a : analyzer) (n : node) : analyzer :=
  match n with
  | ClassDef _ _ _ body _ _ _ => fold_left (check_item file) body a
  | _ => a
  end.

Definition check_tree (file : string) (a : analyzer) (tree : node) : analyzer :=
  fold_left (check_node file) (walk tree) a.

End Methods.

(** ** The legacy analyzer ([code_analyzer.py]) *)

Module Legacy.
Section WithHost.

Variable h : host.

Definition skip_dirs : list string :=
  ["venv"; "__pycache__"; ".git"; "storage"; ".pytest_cache";
   "node_modules"; "mcp-servers"].

(** [_get_python_files] *)
Definition _get_python_files : list path :=
  match listing h with
  | None => []
  | Some top =>
      flat_map (fun '(root, files) =>
        map (fun file => (root ++ [file])%list)
            (List.filter (fun file => Py.endswith file ".py") files))
        (os_walk (fun d => negb (Py.mem d skip_dirs)) top)
  end.

(** One iteration of the loop of [_check_syntax_errors]. *)
Definition check_syntax_file (a : analyzer) (file_path : path) : analyzer :=
  let file := str_path (project_root a) file_path in
  match parse_file h file with
  | inl _ => a
  | inr (SyntaxError lineno msg) =>
      add_error a ("SYNTAX ERROR in " +:+ file +:+ ": Line "
                   +:+ Py.str_opt_int lineno +:+ ": " +:+ msg)
  | inr e =>
      add_warning a ("Could not parse " +:+ file +:+ ": " +:+ str_exn file e)
  end.

Definition _check_syntax_errors (a : analyzer) (files : list path) : analyzer :=
  fold_left check_syntax_file files a.

Definition optional_packages : list string :=
  ["selenium"; "streamlit"; "loguru"; "pandas"; "playwright"].

(** The dotted module name of a file below the project root. *)
Definition module_name_of (rel_path : path) : string :=
  let module_parts := (List.removelast rel_path ++ [Py.stem (List.last rel_path "")])%list in
  Py.join "." module_parts.

(** One iteration of the loop of [_check_import_errors].  The paths come
    from [_get_python_files], so [relative_to] succeeds; a cached module
    is dropped from [sys.modules] first, which the loader oracle
    subsumes.  Nothing here puts [sys.path] back: the loop goes on with
    the path the imported module left. *)
Definition check_import_file (s : pstate) (file_path : path)
  : pstate * option string :=
  let '(a, sys_path) := s in
  let file := str_path (project_root a) file_path in
  let rel_path := file_path in
  if String.eqb (List.last rel_path "") "__init__.py"
     || Py.contains "venv" (Py.join "/" rel_path)
  then (s, None)
  else
    let module_name := module_name_of rel_path in
    let left_path := path_after_import h sys_path module_name in
    match import_module h sys_path module_name with
    | Imported => ((a, left_path), None)
    | RaisesImportError error_msg =>
        if Py.contains "No module named" error_msg then
          if existsb (fun pkg => Py.contains pkg error_msg) optional_packages
          then ((add_warning a ("MISSING DEPENDENCY in " +:+ file +:+ ": " +:+ error_msg),
                 left_path), None)
          else ((add_error a ("IMPORT ERROR in " +:+ file +:+ ": " +:+ error_msg),
                 left_path), None)
        else ((add_error a ("IMPORT ERROR in " +:+ file +:+ ": " +:+ error_msg),
               left_path), None)
    | RaisesException str_e =>
        (* Other errors during import (like parameter mismatches) *)
        ((add_error a ("IMPORT ERROR in " +:+ file +:+ ": " +:+ str_e), left_path),
         None)
    | RaisesBaseException str_e => ((a, left_path), Some str_e)
    end.

(** [list.remove(x)]: drops the first occurrence. *)
Fixpoint list_remove (x : string) (l : list string) : list string :=
  match l with
  | [] => []
  | y :: l' => if String.eqb x y then l' else y :: list_remove x l'
  end.

(** [_check_import_errors]: the root is put in front of [sys.path], every
    file is imported, and the root is taken out again after the loop. *)
Definition _check_import_errors (s : pstate) (files : list path)
  : pstate * option string :=
  let '(a, sys_path) := s in
  let sys_path := project_root a :: sys_path in
  match for_each check_import_file (a, sys_path) files with
  | ((a, sys_path), None) =>
      if Py.mem (project_root a) sys_path
      then ((a, list_remove (project_root a) sys_path), None)
      else ((a, sys_path), None)
  | (s', Some e) => (s', Some e)
  end.

(** One iteration of the loop of [_check_parameter_mismatches]. *)
Definition check_parameters_file (a : analyzer) (file_path : path) : analyzer :=
  let file := str_path (project_root a) file_path in
  match parse_file h file with
  | inl tree => Arity.check_tree "takes" file a tree
  | inr e =>
      add_warning a ("Could not check parameters in " +:+ file +:+ ": "
                     +:+ str_exn file e)
  end.

Definition _check_parameter_mismatches (a : analyzer) (files : list path)
  : analyzer :=
  fold_left check_parameters_file files a.

(** Built-in names and common Python functions seeding [defined_names]. *)
Definition builtin_names : list string :=
  ["print"; "str"; "int"; "float"; "list"; "dict"; "len"; "range";
   "enumerate"; "Exception"; "ValueError"; "TypeError"; "ImportError";
   "KeyError"; "AttributeError"; "FileNotFoundError"; "SyntaxError";
   "KeyboardInterrupt"; "StopIteration"; "isinstance"; "hasattr";
   "getattr"; "setattr"; "delattr"; "bool"; "tuple"; "set"; "max";
   "min"; "sum"; "abs"; "all"; "any"; "open"; "iter"; "next"; "zip";
   "map"; "filter"; "sorted"; "reversed"; "format"; "repr"; "hash";
   "id"; "type"; "super"; "property"; "staticmethod"; "classmethod";
   "callable"; "vars"; "dir"; "globals"; "locals"; "exec"; "eval";
   "compile"; "input"; "round"; "pow"; "divmod"; "chr"; "ord"].

Definition seed : gset string := Undefined.add_all builtin_names ∅.

(** One iteration of the loop of [_check_undefined_variables]. *)
Definition check_undefined_file (a : analyzer) (file_path : path) : analyzer :=
  let file := str_path (project_root a) file_path in
  match parse_file h file with
  | inl tree => Undefined.check_tree (str_isupper h) seed file a tree
  | inr e =>
      add_warning a ("Could not check undefined variables in " +:+ file
                     +:+ ": " +:+ str_exn file e)
  end.

Definition _check_undefined_variables (a : analyzer) (files : list path)
  : analyzer :=
  fold_left check_undefined_file files a.

(** One iteration of the loop of [_check_class_method_signatures]. *)
Definition check_methods_file (a : analyzer) (file_path : path) : analyzer :=
  let file := str_path (project_root a) file_path in
  match parse_file h file with
  | inl tree => Methods.check_tree file a tree
  | inr e =>
      add_warning a ("Could not check class methods in " +:+ file +:+ ": "
                     +:+ str_exn file e)
  end.

Definition _check_class_method_signatures (a : analyzer) (files : list path)
  : analyzer :=
  fold_left check_methods_file files a.

(** [analyze_all] *)
Definition analyze_all (s : pstate) : outcome * pstate :=
  let '(a, sys_path) := s in
  let a := reset a in
  let python_files := _get_python_files in
  let a := _check_syntax_errors a python_files in
  match _check_import_errors (a, sys_path) python_files with
  | (s', Some e) => (Raises e, s')
  | ((a, sys_path), None) =>
      let a := _check_parameter_mismatches a python_files in
      let a := _check_undefined_variables a python_files in
      let a := _check_class_method_signatures a python_files in
      (Returns (result_of a), (a, sys_path))
  end.

(** [analyze_specific] *)
Definition analyze_specific (s : pstate) (analysis_type : string)
  : outcome * pstate :=
  let '(a, sys_path) := s in
  let a := reset a in
  let python_files := _get_python_files in
  if String.eqb analysis_type "syntax" then
    let a := _check_syntax_errors a python_files in
    (Returns (result_of a), (a, sys_path))
  else if String.eqb analysis_type "imports" then
    match _check_import_errors (a, sys_path) python_files with
    | (s', Some e) => (Raises e, s')
    | ((a, sys_path), None) => (Returns (result_of a), (a, sys_path))
    end
  else if String.eqb analysis_type "parameters" then
    let a := _check_parameter_mismatches a python_files in
    (Returns (result_of a), (a, sys_path))
  else if String.eqb analysis_type "methods" then
    let a := _check_class_method_signatures a python_files in
    (Returns (result_of a), (a, sys_path))
  else if String.eqb analysis_type "comprehensive" then
    analyze_all (a, sys_path)
  else
    let a := add_error a ("Unknown analysis type: " +:+ analysis_type) in
    (Returns (result_of a), (a, sys_path)).

End WithHost.
End Legacy.

(** ** The enhanced analyzer ([src/analyzers/code_analyzer.py]) *)

Module Enhanced.
Section WithHost.

Variable h : host.

(** [FileUtils.get_python_files] *)
Definition get_python_files (project_root : string) : list path :=
  match listing h with
  | None => []
  | Some top =>
      List.filter (fun py_file =>
        negb (existsb (fun part => Py.contains part (str_path project_root py_file))
                ["__pycache__"; ".pytest_cache"; "venv"; ".venv"]))
        (rglob (fun n => Py.endswith n ".py") top)
  end.

(** The file name [ast.parse(content)] reports when none is given. *)
Definition unknown : string := "<unknown>".

(** One iteration of the loop of [_check_syntax_errors]. *)
Definition check_syntax_file (a : analyzer) (py_file : path) : analyzer :=
  let file := str_path (project_root a) py_file in
  match parse_file h file with
  | inl _ => a
  | inr (SyntaxError lineno msg) =>
      add_error a ("Syntax error in " +:+ file +:+ ": "
                   +:+ Py.str_SyntaxError msg unknown lineno)
  | inr (UnicodeDecodeError _) =>
      add_warning a ("Could not decode " +:+ file)
  | inr (OtherException str_e) =>
      add_warning a ("Error reading " +:+ file +:+ ": " +:+ str_e)
  end.

Definition _check_syntax_errors (a : analyzer) (python_files : list path)
  : analyzer :=
  fold_left check_syntax_file python_files a.

(** [_check_module_exists]: [sys.path] is copied, the root is put in
    front unless present, the module is imported, and the [finally]
    clause puts the copy back whatever happened, also over what the
    imported module did to the path. *)
Definition _check_module_exists (file : string) (s : pstate)
  (module_name : string) : pstate * option string :=
  let '(a, sys_path) := s in
  let original_path := sys_path in
  let sys_path :=
    if negb (Py.mem (project_root a) sys_path)
    then project_root a :: sys_path else sys_path in
  match import_module h sys_path module_name with
  | Imported => ((a, original_path), None)
  | RaisesImportError _ =>
      (* Check if it's a local module that might not exist *)
      if Py.contains "." module_name || Py.startswith module_name "_"
      then ((add_warning a ("Potential missing module '" +:+ module_name
                            +:+ "' in " +:+ file), original_path), None)
      else ((add_error a ("Cannot import '" +:+ module_name +:+ "' in "
                          +:+ file), original_path), None)
  | RaisesException str_e =>
      ((add_warning a ("Error checking module '" +:+ module_name +:+ "' in "
                       +:+ file +:+ ": " +:+ str_e), original_path), None)
  | RaisesBaseException str_e => ((a, original_path), Some str_e)
  end.

(** One iteration of [for node in ast.walk(tree)] in
    [_check_import_errors]. *)
Definition check_import_node (file : string) (s : pstate) (n : node)
  : pstate * option string :=
  match n with
  | Import names =>
      for_each (_check_module_exists file) s (map alias_name names)
  | ImportFrom (Some module) _ =>
      if String.eqb module "" then (s, None)
      else _check_module_exists file s module
  | _ => (s, None)
  end.

(** One iteration of the loop over the files in [_check_import_errors]. *)
Definition check_import_file (s : pstate) (py_file : path)
  : pstate * option string :=
  let file := str_path (project_root (fst s)) py_file in
  match parse_file h file with
  | inl tree => for_each (check_import_node file) s (walk tree)
  | inr e =>
      ((add_warning (fst s) ("Could not check imports for " +:+ file +:+ ": "
                             +:+ str_exn unknown e), snd s), None)
  end.

Definition _check_import_errors (s : pstate) (python_files : list path)
  : pstate * option string :=
  for_each check_import_file s python_files.

(** One iteration of the loop of [_check_parameter_mismatches]. *)
Definition check_parameters_file (a : analyzer) (py_file : path) : analyzer :=
  let file := str_path (project_root a) py_file in
  match parse_file h file with
  | inl tree => Arity.check_tree "accepts max" file a tree
  | inr e =>
      add_warning a ("Could not check parameters for " +:+ file +:+ ": "
                     +:+ str_exn file e)
  end.

Definition _check_parameter_mismatches (a : analyzer)
  (python_files : list path) : analyzer :=
  fold_left check_parameters_file python_files a.

(** One iteration of the loop of [_check_undefined_variables];
    [defined_names] starts empty. *)
Definition check_undefined_file (a : analyzer) (py_file : path) : analyzer :=
  let file := str_path (project_root a) py_file in
  match parse_file h file with
  | inl tree => Undefined.check_tree (str_isupper h) ∅ file a tree
  | inr e =>
      add_warning a ("Could not check variables for " +:+ file +:+ ": "
                     +:+ str_exn file e)
  end.

Definition _check_undefined_variables (a : analyzer)
  (python_files : list path) : analyzer :=
  fold_left check_undefined_file python_files a.

(** One iteration of the loop of [_check_class_method_signatures]. *)
Definition check_methods_file (a : analyzer) (py_file : path) : analyzer :=
  let file := str_path (project_root a) py_file in
  match parse_file h file with
  | inl tree => Methods.check_tree file a tree
  | inr e =>
      add_warning a ("Could not check class methods for " +:+ file +:+ ": "
                     +:+ str_exn file e)
  end.

Definition _check_class_method_signatures (a : analyzer)
  (python_files : list path) : analyzer :=
  fold_left check_methods_file python_files a.

(** [analyze_all] (the synchronous one) *)
Definition analyze_all (s : pstate) : outcome * pstate :=
  let '(a, sys_path) := s in
  let a := reset a in
  let python_files := get_python_files (project_root a) in
  let a := _check_syntax_errors a python_files in
  match _check_import_errors (a, sys_path) python_files with
  | (s', Some e) => (Raises e, s')
  | ((a, sys_path), None) =>
      let a := _check_parameter_mismatches a python_files in
      let a := _check_undefined_variables a python_files in
      let a := _check_class_method_signatures a python_files in
      (Returns (result_of a), (a, sys_path))
  end.

(** [analyze_specific] *)
Definition analyze_specific (s : pstate) (analysis_type : string)
  : outcome * pstate :=
  let '(a, sys_path) := s in
  let a := reset a in
  let python_files := get_python_files (project_root a) in
  if String.eqb analysis_type "syntax" then
    let a := _check_syntax_errors a python_files in
    (Returns (result_of a), (a, sys_path))
  else if String.eqb analysis_type "imports" then
    match _check_import_errors (a, sys_path) python_files with
    | (s', Some e) => (Raises e, s')
    | ((a, sys_path), None) => (Returns (result_of a), (a, sys_path))
    end
  else if String.eqb analysis_type "parameters" then
    let a := _check_parameter_mismatches a python_files in
    (Returns (result_of a), (a, sys_path))
  else if String.eqb analysis_type "variables" then
    let a := _check_undefined_variables a python_files in
    (Returns (result_of a), (a, sys_path))
  else if String.eqb analysis_type "methods" then
    let a := _check_class_method_signatures a python_files in
    (Returns (result_of a), (a, sys_path))
  else
    let a := add_warning a ("Unknown analysis type: " +:+ analysis_type) in
    (Returns (result_of a), (a, sys_path)).

End WithHost.
End Enhanced.

(** * Notions used in the statements

    What one step emits, the concrete files the examples run on, and the
    predicates in which the properties are phrased. *)

(** An analyzer with empty buckets, to read off what one step emits. *)
Definition blank (root : string) : analyzer := Analyzer root [] [].

(** ** Arity pass *)

Module AritySpec.
Import Arity.

(** The errors one iteration of the loop over [function_calls] emits. *)
Definition emitted (verb file : string) (function_defs : gmap string func_def)
  (c : call) : list string :=
  errors (check_call verb file function_defs (blank "") c).

(** [def f(a, b, c=1)] on line 1, then [f(1)], [f(1, 2)], [f(1, 2, 3)] and
    [f(1, 2, 3, 4)] as expression statements on lines 3 to 6. *)
Definition call_f (n : nat) (lineno : Z) : node :=
  Other [Call (Name "f" Load lineno) (repeat leaf n) [] lineno].

Definition arity_example : node :=
  Module [FunctionDef "f" (positional ["a"; "b"; "c"] [leaf]) [Other []] []
            None [] 1;
          call_f 1 3; call_f 2 4; call_f 3 5; call_f 4 6].

(** [def scale(value, /, factor): return value * factor] on line 1, then
    the call [scale(2, 3)] on line 4. *)
Definition scale_args : arguments :=
  Args [Arg "value" None] [Arg "factor" None] None [] [] None [].

Definition posonly_example : node :=
  Module [FunctionDef "scale" scale_args
            [Other [Other [Name "value" Load 2; leaf; Name "factor" Load 2]]]
            [] None [] 1;
          Other [Call (Name "scale" Load 4) [leaf; leaf] [] 4]].

(** The parameters of [def shift(dx=1, /, dy=2)]. *)
Definition shift_args : arguments :=
  Args [Arg "dx" None] [Arg "dy" None] None [] [] None [leaf; leaf].

(** The parameters a call can fill by position: the positional-only ones
    and those that can also be passed by keyword. *)
Definition positional_parameters (a : arguments) : list (arg_of node) :=
  (posonlyargs a ++ args a)%list.

(** The counts in the words of the specification: the positional
    parameters, less the first when it is named [self]; and that count
    less the parameters with a default value. *)
Definition positional_count (a : arguments) : Z :=
  len (positional_parameters a)
  - match positional_parameters a with
    | a0 :: _ => if String.eqb (arg a0) "self" then 1 else 0
    | [] => 0
    end.

Definition required_count (a : arguments) : Z :=
  positional_count a - len (defaults a).

(** [isinstance(n, ast.FunctionDef) and n.name == name] *)
Definition defines (name : string) (n : node) : bool :=
  match n with
  | FunctionDef name' _ _ _ _ _ _ => String.eqb name' name
  | _ => false
  end.

End AritySpec.

(** ** Method-signature pass *)

Module MethodsSpec.
Import Methods.

(** Whether [check_item] reports a method. *)
Definition flagged (name : string) (item_args : arguments)
  (decorator_list : list node) : bool :=
  match args item_args with
  | [] => true
  | a0 :: _ =>
      negb (String.eqb (arg a0) "self")
      && negb (Py.startswith name "_")
      && negb (has_decorator decorator_list)
  end.

(** A class whose body is
    [@staticmethod def unit(): ...] (line 3) and
    [def _reset(): ...] (line 5). *)
Definition static_example : node :=
  Module [ClassDef "Shapes" [] []
            [FunctionDef "unit" (positional [] []) [Other [leaf]]
               [Name "staticmethod" Load 2] None [] 3;
             FunctionDef "_reset" (positional [] []) [Other []] [] None [] 5]
            [] [] 1].

End MethodsSpec.

(** ** Syntax pass *)

Module SyntaxSpec.



End SyntaxSpec.

(** ** Entry points *)

Module EntrySpec.

(** A host with no project directory and nothing importable going wrong. *)
Definition quiet_host : host :=
  Host None (fun _ => ReadException "missing")
       (fun _ => ParseException "unused") (fun _ _ => Imported)
       (fun sys_path _ => sys_path)
       Py.isupper.

Definition analysis_types : list string :=
  ["syntax"; "imports"; "parameters"; "variables"; "methods"; "comprehensive"].

(** A call made on an analyzer object: [analyze_all()] or
    [analyze_specific(analysis_type)]. *)
Inductive request :=
| All
| Specific (analysis_type : string).

Definition legacy_call (h : host) (s : pstate) (r : request) : outcome * pstate :=
  match r with
  | All => Legacy.analyze_all h s
  | Specific analysis_type => Legacy.analyze_specific h s analysis_type
  end.

Definition enhanced_call (h : host) (s : pstate) (r : request)
  : outcome * pstate :=
  match r with
  | All => Enhanced.analyze_all h s
  | Specific analysis_type => Enhanced.analyze_specific h s analysis_type
  end.

(** The state a sequence of calls leaves behind, whether each returned or
    raised. *)
Definition session (call : pstate -> request -> outcome * pstate)
  (s : pstate) (earlier : list request) : pstate :=
  fold_left (fun s r => snd (call s r)) earlier s.

End EntrySpec.

(** ** Import pass *)

Module ImportSpec.

(** A host whose loader always fails with [outcome] and leaves
    [sys.path] alone; the project holds the single file [tool.py], which
    parses to [import pandas]. *)
Definition failing_host (outcome : import_outcome) : host :=
  Host (Some [File "tool.py"])
       (fun _ => ReadOk "import pandas")
       (fun _ => ParseOk (Module [Import [Alias "pandas" None]]))
       (fun _ _ => outcome)
       (fun sys_path _ => sys_path)
       Py.isupper.

(** [rel_path.name == "__init__.py" or "venv" in str(rel_path)] *)
Definition skipped (rel_path : path) : bool :=
  String.eqb (List.last rel_path "") "__init__.py"
  || Py.contains "venv" (Py.join "/" rel_path).



End ImportSpec.

(** ** The module search path *)

Module PathSpec.

(** The analyzer's root and [sys.path], the part of the state the import
    loops of the rewrite leave alone. *)
Definition frame (s : pstate) : string * list string :=
  (project_root (fst s), snd s).

(** Importing the file, when the legacy pass does import it, leaves
    [sys_path] as it finds it. *)
Definition leaves_path_alone (h : host) (sys_path : list string)
  (file_path : path) : Prop :=
  ImportSpec.skipped file_path = false ->
  path_after_import h sys_path (Legacy.module_name_of file_path) = sys_path.

(** A project whose file [analyzers/test_runner.py] starts with
    [sys.path.insert(0, str(project_root))] and imports without error. *)
Definition inserting_host : host :=
  Host (Some [Dir "analyzers" [File "test_runner.py"]])
       (fun _ => ReadOk "import sys")
       (fun _ => ParseOk (Module [Import [Alias "sys" None]]))
       (fun _ _ => Imported)
       (fun sys_path _ => "/p" :: sys_path)
       Py.isupper.

End PathSpec.

(** ** File discovery and the entry points *)

Module TotalitySpec.

(** Some file below [e] has a name ending in [.py]. *)
Fixpoint has_python_file (e : entry) : bool :=
  match e with
  | File f => Py.endswith f ".py"
  | Dir _ sub => existsb has_python_file sub
  end.

(** The paths [_get_python_files] appends for one step of [os.walk]. *)
Definition python_in (step : path * list string) : list path :=
  let '(root, files) := step in
  map (fun file => (root ++ [file])%list)
      (List.filter (fun file => Py.endswith file ".py") files).

(** The analysis types the legacy [analyze_specific] knows. *)
Definition legacy_types : list string :=
  ["syntax"; "imports"; "parameters"; "methods"; "comprehensive"].

(** A project whose only file, [tool.py], is the script
    [import sys; sys.exit(2)]: importing it raises [SystemExit(2)], whose
    [str] is ["2"]. *)
Definition exiting_host : host :=
  Host (Some [File "tool.py"])
       (fun _ => ReadOk "import sys; sys.exit(2)")
       (fun _ => ParseOk
          (Module [Import [Alias "sys" None];
                   Other [Call (Other [Name "sys" Load 1; leaf]) [leaf] [] 1]]))
       (fun _ name =>
          if String.eqb name "tool" then RaisesBaseException "2" else Imported)
       (fun sys_path _ => sys_path)
       Py.isupper.

(** A project with a readme and a directory of notes, and no Python
    file. *)
Definition notes_host : host :=
  Host (Some [File "README.md"; Dir "docs" [File "index.md"; File "usage.md"]])
       (fun _ => ReadException "unused")
       (fun _ => ParseException "unused")
       (fun _ _ => Imported)
       (fun sys_path _ => sys_path)
       Py.isupper.

End TotalitySpec.

(** ** Undefined-name pass *)

Module UndefinedSpec.
Import Undefined.

(** The names a node adds to [defined_names]. *)
Definition bound_names (n : node) : list string :=
  match n with
  | Import names => map bound_alias names
  | ImportFrom _ names => map bound_alias names
  | Assign targets _ => name_targets targets
  | FunctionDef name _ _ _ _ _ _ => [name]
  | ClassDef name _ _ _ _ _ _ => [name]
  | _ => []
  end.

(** [total = count] on line 1, then [def setup(): count = 0]. *)
Definition defined_later_and_deeper : node :=
  Module [Assign [Name "total" Store 1] (Name "count" Load 1);
          FunctionDef "setup" (positional [] [])
            [Assign [Name "count" Store 3] leaf] [] None [] 2].

(** [def setup(): if READY: count = 0], then [total = count] on line 4. *)
Definition defined_earlier_and_deeper : node :=
  Module [FunctionDef "setup" (positional [] [])
            [Other [Name "READY" Load 2; Assign [Name "count" Store 3] leaf]]
            [] None [] 1;
          Assign [Name "total" Store 4] (Name "count" Load 4)].

(** [def report(): return count] on line 1, then [count = 0]: the
    assignment comes later in the file and its name is known at the
    use. *)
Definition defined_later_at_module_level : node :=
  Module [FunctionDef "report" (positional [] [])
            [Other [Name "count" Load 2]] [] None [] 1;
          Assign [Name "count" Store 3] leaf].

(** [class A(base): pass] on line 1, then [def f(): base = 1]. *)
Definition used_before_at_same_depth : node :=
  Module [ClassDef "A" [Name "base" Load 1] [] [leaf] [] [] 1;
          FunctionDef "f" (positional [] [])
            [Assign [Name "base" Store 3] leaf] [] None [] 2].

(** The same two statements in the other order. *)
Definition bound_before_at_same_depth : node :=
  Module [FunctionDef "f" (positional [] [])
            [Assign [Name "base" Store 2] leaf] [] None [] 1;
          ClassDef "A" [Name "base" Load 3] [] [leaf] [] [] 3].

End UndefinedSpec.

(** * Notions used in the further properties *)

(** ** File discovery *)

Module DiscoverySpec.

(** [file] is a regular file in the directory reached from [entries]
    through the directories [dirs]. *)
Fixpoint file_at (entries : list entry) (dirs : list string) (file : string)
  : Prop :=
  match dirs with
  | [] => In (File file) entries
  | d :: dirs' => exists sub, In (Dir d sub) entries /\ file_at sub dirs' file
  end.

(** [name] is an entry, file or directory, of the directory reached from
    [entries] through [dirs]. *)
Fixpoint entry_at (entries : list entry) (dirs : list string) (name : string)
  : Prop :=
  match dirs with
  | [] => exists e, In e entries /\ entry_name e = name
  | d :: dirs' => exists sub, In (Dir d sub) entries /\ entry_at sub dirs' name
  end.

(** The path parts [FileUtils.get_python_files] excludes. *)
Definition excluded_parts : list string :=
  ["__pycache__"; ".pytest_cache"; "venv"; ".venv"].

(** A project that holds [app.py] and [pkg/util.py]. *)
Definition small_project : host :=
  Host (Some [File "app.py"; Dir "pkg" [File "util.py"]])
       (fun _ => ReadOk "")
       (fun _ => ParseOk (Module []))
       (fun _ _ => Imported)
       (fun sys_path _ => sys_path)
       Py.isupper.

End DiscoverySpec.

(** ** How the passes compose *)

Module CompositionSpec.

(** [a] with the findings of [b] appended to its buckets. *)
Definition extend (a b : analyzer) : analyzer :=
  Analyzer (project_root a) (errors a ++ errors b) (warnings a ++ warnings b).

(** A pass whose findings are, bucket by bucket and in file order, those
    each file gives when the pass runs on it alone with empty buckets. *)
Definition file_by_file (pass : analyzer -> list path -> analyzer) : Prop :=
  forall a files,
    let alone f := pass (blank (project_root a)) [f] in
    project_root (pass a files) = project_root a
    /\ errors (pass a files)
       = (errors a ++ flat_map (fun f => errors (alone f)) files)%list
    /\ warnings (pass a files)
       = (warnings a ++ flat_map (fun f => warnings (alone f)) files)%list.

(** The same for a step that can let an exception escape: the state and
    the exception are those of the step run with empty buckets, the
    findings appended. *)
Definition lift (a : analyzer) (r : pstate * option string)
  : pstate * option string :=
  ((extend a (fst (fst r)), snd (fst r)), snd r).

(** A step that only appends, whatever the buckets hold. *)
Definition appends {X : Type} (f : analyzer -> X -> analyzer) : Prop :=
  forall a x, f a x = extend a (f (blank (project_root a)) x).

(** A step on the process state that only appends. *)
Definition appends_st {X : Type} (body : pstate -> X -> pstate * option string)
  : Prop :=
  forall a sys_path x,
    body (a, sys_path) x = lift a (body (blank (project_root a), sys_path) x).

End CompositionSpec.

(** ** Reports

    The text renderings of a result.  Strings are byte strings, so the
    symbols of the headings are their UTF-8 bytes. *)

Module Report.

(** The line feed. *)
Definition nl : string := String "010"%char "".

(** [''.join(output)] *)
Definition join_all (output : list string) : string :=
  fold_right String.append "" output.

(** [s * n] *)
Fixpoint repeat_str (s : string) (n : nat) : string :=
  match n with
  | O => ""
  | S n' => s +:+ repeat_str s n'
  end.

(** [len(xs)] printed in an f-string. *)
Definition count {A : Type} (xs : list A) : string :=
  Py.str_int (Z.of_nat (length xs)).

(** The bullet lines of a section, one per finding. *)
Definition bullets (mark : string) (findings : list string) : list string :=
  map (fun finding => mark +:+ finding +:+ nl) findings.

End Report.

(** The report methods of the legacy [CodeAnalyzer]. *)
Module LegacyReport.
Import Report.

(** [_format_as_markdown] *)
Definition _format_as_markdown (results : result) : string :=
  let output := ["# Code Analysis Report" +:+ nl +:+ nl] in
  let output :=
    match res_errors results with
    | [] => output
    | _ :: _ =>
        (output
         ++ ["## ❌ Errors (" +:+ count (res_errors results) +:+ ")" +:+ nl +:+ nl]
         ++ bullets "- " (res_errors results) ++ [nl])%list
    end in
  let output :=
    match res_warnings results with
    | [] => output
    | _ :: _ =>
        (output
         ++ ["## ⚠️ Warnings (" +:+ count (res_warnings results) +:+ ")" +:+ nl +:+ nl]
         ++ bullets "- " (res_warnings results) ++ [nl])%list
    end in
  let output :=
    match res_errors results, res_warnings results with
    | [], [] =>
        (output
         ++ ["## ✅ No Issues Found" +:+ nl +:+ nl
             +:+ "Code analysis completed successfully with no errors or warnings."
             +:+ nl])%list
    | _, _ => output
    end in
  join_all output.

(** [_format_as_plain] *)
Definition _format_as_plain (results : result) : string :=
  let output := ["Code Analysis Report" +:+ nl; repeat_str "=" 50; nl +:+ nl] in
  let output :=
    match res_errors results with
    | [] => output
    | _ :: _ =>
        (output
         ++ ["ERRORS (" +:+ count (res_errors results) +:+ "):" +:+ nl]
         ++ bullets "  • " (res_errors results) ++ [nl])%list
    end in
  let output :=
    match res_warnings results with
    | [] => output
    | _ :: _ =>
        (output
         ++ ["WARNINGS (" +:+ count (res_warnings results) +:+ "):" +:+ nl]
         ++ bullets "  • " (res_warnings results) ++ [nl])%list
    end in
  let output :=
    match res_errors results, res_warnings results with
    | [], [] =>
        (output
         ++ ["NO ISSUES FOUND" +:+ nl +:+ nl
             +:+ "Code analysis completed successfully." +:+ nl])%list
    | _, _ => output
    end in
  join_all output.

(** [format_results]; [json_dumps] stands for
    [json.dumps(results, indent=2, ensure_ascii=False)]. *)
Definition format_results (json_dumps : result -> string) (results : result)
  (output_format : string) : string :=
  if String.eqb output_format "json" then json_dumps results
  else if String.eqb output_format "markdown" then _format_as_markdown results
  else _format_as_plain results.


End LegacyReport.

(** [Formatter], the part that renders analysis results
    ([utils/formatters.py]). *)
Module Formatter.
Import Report.

(** The mapping handed to the formatter, by the keys the text formats
    read; a key may be absent. *)
Record results := Results {
  r_errors : option (list string);
  r_warnings : option (list string);
  r_summary : option string
}.


(** [if key in results and results[key]:] ... *)
Definition section (title mark : string) (findings : option (list string))
  : list string :=
  match findings with
  | Some ((_ :: _) as l) => ([title] ++ bullets mark l ++ [nl])%list
  | _ => []
  end.

(** [_format_analysis_markdown] *)
Definition _format_analysis_markdown (r : results) : string :=
  let output := ["# Code Analysis Results" +:+ nl +:+ nl] in
  let output :=
    (output ++ section ("## Errors" +:+ nl +:+ nl) "- " (r_errors r))%list in
  let output :=
    (output ++ section ("## Warnings" +:+ nl +:+ nl) "- " (r_warnings r))%list in
  let output :=
    match r_summary r with
    | Some summary =>
        (output ++ ["## Summary" +:+ nl +:+ nl; summary +:+ nl +:+ nl])%list
    | None => output
    end in
  join_all output.

(** [_format_analysis_plain] *)
Definition _format_analysis_plain (r : results) : string :=
  let output := ["Code Analysis Results" +:+ nl; repeat_str "=" 50; nl +:+ nl] in
  let output :=
    (output ++ section ("ERRORS:" +:+ nl) "  - " (r_errors r))%list in
  let output :=
    (output ++ section ("WARNINGS:" +:+ nl) "  - " (r_warnings r))%list in
  let output :=
    match r_summary r with
    | Some summary =>
        (output ++ ["SUMMARY:" +:+ nl; summary +:+ nl +:+ nl])%list
    | None => output
    end in
  join_all output.

(** [format_analysis_results], which the enhanced
    [CodeAnalyzer.format_results] calls. *)
Definition format_analysis_results (json_dumps : results -> string)
  (r : results) (output_format : string) : string :=
  if String.eqb output_format "json" then json_dumps r
  else if String.eqb output_format "markdown" then _format_analysis_markdown r
  else _format_analysis_plain r.

End Formatter.

(** The report the enhanced [CodeAnalyzer.save_results] writes. *)
Module EnhancedReport.
Import Report.


End EnhancedReport.

(** ** Import passes *)

Module ImportDetail.

(** The module names an import statement asks for: every alias of
    [import a, b] and the module of [from m import ...] when it is given. *)
Definition imported_modules (n : node) : list string :=
  match n with
  | Import names => map alias_name names
  | ImportFrom (Some module) _ => if String.eqb module "" then [] else [module]
  | _ => []
  end.

(** [sys.path] during an import attempt of the enhanced pass. *)
Definition searched (root : string) (sys_path : list string) : list string :=
  if Py.mem root sys_path then sys_path else root :: sys_path.

(** The error of the enhanced pass for module [m] imported by [file]. *)
Definition cannot_import (h : host) (root : string) (sys_path : list string)
  (file m e : string) : Prop :=
  (exists msg, import_module h (searched root sys_path) m = RaisesImportError msg)
  /\ Py.contains "." m = false
  /\ Py.startswith m "_" = false
  /\ e = "Cannot import '" +:+ m +:+ "' in " +:+ file.

(** The error of the legacy pass for the discovered file [file_path]. *)
Definition import_error (h : host) (root : string) (sys_path : list string)
  (file_path : path) (e : string) : Prop :=
  ImportSpec.skipped file_path = false
  /\ exists msg,
       e = "IMPORT ERROR in " +:+ str_path root file_path +:+ ": " +:+ msg
       /\ (import_module h sys_path (Legacy.module_name_of file_path)
           = RaisesException msg
           \/ (import_module h sys_path (Legacy.module_name_of file_path)
               = RaisesImportError msg
               /\ Py.contains "No module named" msg
                  && existsb (fun pkg => Py.contains pkg msg)
                       Legacy.optional_packages = false)).

(** The warning of the legacy pass for the discovered file [file_path]. *)
Definition missing_dependency (h : host) (root : string)
  (sys_path : list string) (file_path : path) (w : string) : Prop :=
  ImportSpec.skipped file_path = false
  /\ exists msg,
       w = "MISSING DEPENDENCY in " +:+ str_path root file_path +:+ ": " +:+ msg
       /\ import_module h sys_path (Legacy.module_name_of file_path)
          = RaisesImportError msg
       /\ Py.contains "No module named" msg = true
       /\ existsb (fun pkg => Py.contains pkg msg) Legacy.optional_packages = true.

(** [sys.path] as the legacy loop has it when it turns to the next file,
    the files [earlier] done: what the modules imported so far have made
    of [sys_path]. *)
Fixpoint path_reached (h : host) (sys_path : list string) (earlier : list path)
  : list string :=
  match earlier with
  | [] => sys_path
  | file_path :: rest =>
      path_reached h
        (if ImportSpec.skipped file_path then sys_path
         else path_after_import h sys_path (Legacy.module_name_of file_path))
        rest
  end.

End ImportDetail.

(** * Properties *)

(** ** Bookkeeping on the finding buckets *)

Lemma errors_add_error a msg : errors (add_error a msg) = (errors a ++ [msg])%list.
Proof. reflexivity. Qed.

Lemma warnings_add_error a msg : warnings (add_error a msg) = warnings a.
Proof. reflexivity. Qed.

Lemma errors_add_warning a msg : errors (add_warning a msg) = errors a.
Proof. reflexivity. Qed.

Lemma warnings_add_warning a msg :
  warnings (add_warning a msg) = (warnings a ++ [msg])%list.
Proof. reflexivity. Qed.

Lemma root_add_error a msg : project_root (add_error a msg) = project_root a.
Proof. reflexivity. Qed.

Lemma root_add_warning a msg : project_root (add_warning a msg) = project_root a.
Proof. reflexivity. Qed.

(** ** Arity pass *)

Module ArityFacts.
Import Arity AritySpec.

Lemma check_call_errors verb file defs a c :
  errors (check_call verb file defs a c)
  = (errors a ++ emitted verb file defs c)%list.
Proof.
  unfold emitted, check_call.
  destruct (defs !! call_name c) as [d|]; simpl.
  - destruct (_ <? _); simpl; [reflexivity|].
    destruct (_ >? _); simpl; [reflexivity|].
    symmetry; apply app_nil_r.
  - symmetry; apply app_nil_r.
Qed.

Lemma check_call_warnings verb file defs a c :
  warnings (check_call verb file defs a c) = warnings a.
Proof.
  unfold check_call.
  destruct (defs !! call_name c) as [d|]; [|reflexivity].
  simpl. destruct (_ <? _); [reflexivity|].
  destruct (_ >? _); reflexivity.
Qed.

Lemma check_calls_errors verb file defs calls a :
  errors (fold_left (check_call verb file defs) calls a)
  = (errors a ++ flat_map (emitted verb file defs) calls)%list.
Proof.
  revert a; induction calls as [|c calls IH]; intros a; simpl.
  - symmetry; apply app_nil_r.
  - rewrite IH, check_call_errors, <- app_assoc. reflexivity.
Qed.

Lemma check_calls_warnings verb file defs calls a :
  warnings (fold_left (check_call verb file defs) calls a) = warnings a.
Proof.
  revert a; induction calls as [|c calls IH]; intros a; simpl.
  - reflexivity.
  - rewrite IH. apply check_call_warnings.
Qed.

(** What one call emits, by the three cases of the comparison. *)
Lemma emitted_cases verb file defs c d :
  defs !! call_name c = Some d ->
  let provided := call_args c + call_kwargs c in
  (provided < required_args d -> emitted verb file defs c = [too_few file c d])
  /\ (required_args d <= provided -> provided > total_args d ->
      emitted verb file defs c = [too_many verb file c d])
  /\ (required_args d <= provided <= total_args d ->
      emitted verb file defs c = []).
Proof.
  intros Hd provided. unfold emitted, check_call. rewrite Hd. fold provided.
  repeat split; intros.
  - destruct (Z.ltb_spec provided (required_args d)); [reflexivity|lia].
  - destruct (Z.ltb_spec provided (required_args d)); [lia|].
    destruct (Z.gtb_spec provided (total_args d)); [reflexivity|lia].
  - destruct (Z.ltb_spec provided (required_args d)); [lia|].
    destruct (Z.gtb_spec provided (total_args d)); [lia|reflexivity].
Qed.

(** The calls and definitions collected over a prefix are kept by the
    rest of the walk, except for definitions that are overwritten. *)
Lemma collect_node_calls acc n :
  exists extra, fst (collect_node acc n) = (fst acc ++ extra)%list
    /\ forall func_name ctx ln0 args keywords lineno,
         n = Call (Name func_name ctx ln0) args keywords lineno ->
         extra = [CallSite func_name (len args) (len keywords) lineno].
Proof.
  destruct acc as [calls defs].
  destruct n as [| | | | | |func args keywords lineno| |];
    try (exists []; simpl; split; [symmetry; apply app_nil_r|discriminate]).
  destruct func;
    try (exists []; simpl; split; [symmetry; apply app_nil_r|discriminate]).
  eexists; simpl; split; [reflexivity|].
  intros ? ? ? ? ? ? [= -> _ _ -> -> ->]. reflexivity.
Qed.

Lemma fold_collect_calls_incl nodes acc c :
  In c (fst acc) -> In c (fst (fold_left collect_node nodes acc)).
Proof.
  revert acc; induction nodes as [|n nodes IH]; intros acc Hc; simpl; [exact Hc|].
  apply IH. destruct (collect_node_calls acc n) as (extra & -> & _).
  apply in_or_app; left; exact Hc.
Qed.

Lemma collect_calls_complete nodes func_name ctx ln0 args keywords lineno :
  In (Call (Name func_name ctx ln0) args keywords lineno) nodes ->
  In (CallSite func_name (len args) (len keywords) lineno) (fst (collect nodes)).
Proof.
  unfold collect. generalize (([], ∅) : list call * gmap string func_def).
  induction nodes as [|n nodes IH]; intros acc Hin; [destruct Hin|].
  destruct Hin as [->|Hin]; simpl.
  - apply fold_collect_calls_incl.
    destruct (collect_node_calls acc
                (Call (Name func_name ctx ln0) args keywords lineno))
      as (extra & -> & Hx).
    rewrite (Hx _ _ _ _ _ _ eq_refl). apply in_or_app; right; left; reflexivity.
  - apply IH, Hin.
Qed.

End ArityFacts.

Module ArityClaims.
Import Arity ArityFacts AritySpec.

Lemma collect_node_defs_other acc n name :
  defines name n = false ->
  snd (collect_node acc n) !! name = snd acc !! name.
Proof.
  destruct acc as [calls defs].
  destruct n as [| | | |name' ? ? ? ? ?| |func ? ? ?| |]; simpl; try reflexivity.
  - intros Hne. apply lookup_insert_ne. intros ->.
    rewrite String.eqb_refl in Hne. discriminate.
  - destruct func; reflexivity.
Qed.

Lemma fold_collect_defs_other nodes acc name :
  forallb (fun n => negb (defines name n)) nodes = true ->
  snd (fold_left collect_node nodes acc) !! name = snd acc !! name.
Proof.
  revert acc; induction nodes as [|n nodes IH]; intros acc Hall; simpl;
    [reflexivity|].
  simpl in Hall. apply andb_prop in Hall as [Hn Hall].
  rewrite IH by exact Hall. apply collect_node_defs_other.
  destruct (defines name n); [discriminate|reflexivity].
Qed.

Lemma signature_spec (a : arguments) (lineno : Z) :
  let self_first :=
    match args a with a0 :: _ => String.eqb (arg a0) "self" | [] => false end in
  let counted := len (args a) - (if self_first then 1 else 0) in
  signature a lineno = FuncDef (counted - len (defaults a)) counted lineno.
Proof.
  unfold signature. destruct (args a) as [|a0 rest]; simpl.
  - reflexivity.
  - replace (0 <? len (a0 :: rest)) with true
      by (symmetry; apply Z.ltb_lt; unfold len; simpl; lia).
    simpl. destruct (String.eqb (arg a0) "self"); f_equal; lia.
Qed.

(** C2.  For every bare-name call of the walk the arity pass records a
    call site; the errors of the pass are, in call order, what each call
    site emits; and a call site whose name has a collected definition
    emits an error exactly when the number of arguments provided
    (positional plus keyword) is below the required count or above the
    total count: a too-few error in the first case, a too-many error in
    the second.  For [def f(a, b, c=1)] the record is required 2, total 3,
    and of [f(1)], [f(1,2)], [f(1,2,3)], [f(1,2,3,4)] exactly the first
    (too few) and the last (too many) are reported. *)
Theorem arity_error_iff (verb file : string) (a : analyzer) (tree : node) :
  let calls := fst (collect (walk tree)) in
  let defs := snd (collect (walk tree)) in
  errors (check_tree verb file a tree)
    = (errors a ++ flat_map (emitted verb file defs) calls)%list
  /\ warnings (check_tree verb file a tree) = warnings a
  /\ (forall func_name ctx ln0 args keywords lineno,
        In (Call (Name func_name ctx ln0) args keywords lineno) (walk tree) ->
        In (CallSite func_name (len args) (len keywords) lineno) calls)
  /\ (forall c d, In c calls -> defs !! call_name c = Some d ->
        let provided := call_args c + call_kwargs c in
        (emitted verb file defs c <> []
           <-> provided < required_args d \/ provided > total_args d)
        /\ (provided < required_args d ->
            emitted verb file defs c = [too_few file c d])
        /\ (required_args d <= provided -> provided > total_args d ->
            emitted verb file defs c = [too_many verb file c d]))
  /\ snd (collect (walk arity_example)) !! "f" = Some (FuncDef 2 3 1)
  /\ errors (check_tree "takes" "/p/m.py" (blank "/p") arity_example)
     = ["PARAMETER ERROR in /p/m.py:3: Function 'f' requires 2 args but 1 provided";
        "PARAMETER ERROR in /p/m.py:6: Function 'f' takes 3 args but 4 provided"].
Proof.
  intros calls defs.
  assert (Hsplit : collect (walk tree) = (calls, defs))
    by (unfold calls, defs; destruct (collect (walk tree)); reflexivity).
  split; [|split; [|split; [|split; [|split]]]].
  - unfold check_tree. rewrite Hsplit. apply check_calls_errors.
  - unfold check_tree. rewrite Hsplit. apply check_calls_warnings.
  - intros. apply collect_calls_complete with (ctx := ctx) (ln0 := ln0).
    assumption.
  - intros c d Hc Hd provided.
    destruct (emitted_cases verb file defs c d Hd) as (Hfew & Hmany & Hnone).
    fold provided in Hfew, Hmany, Hnone.
    split; [split|split; assumption].
    + intros Hne.
      destruct (Z.lt_ge_cases provided (required_args d)); [left; assumption|].
      destruct (Z.le_gt_cases provided (total_args d)); [|right; lia].
      exfalso. apply Hne, Hnone. lia.
    + intros Hor.
      destruct (Z.lt_ge_cases provided (required_args d)).
      * rewrite Hfew by assumption. discriminate.
      * rewrite Hmany by lia. discriminate.
  - vm_compute. reflexivity.
  - vm_compute. reflexivity.
Qed.

(** C7.  A positional-only parameter is not counted: for
    [def scale(value, /, factor)] the record kept is required 1, total 1,
    where the definition has two positional parameters and no default,
    and the call [scale(2, 3)] is reported as having too many arguments;
    for [def shift(dx=1, /, dy=2)] the required count kept is -1. *)
Theorem positional_only_parameters_not_counted :
  snd (collect (walk posonly_example)) !! "scale" = Some (FuncDef 1 1 1)
  /\ (required_count scale_args, positional_count scale_args) = (2, 2)
  /\ errors (check_tree "takes" "/p/m.py" (blank "/p") posonly_example)
     = ["PARAMETER ERROR in /p/m.py:4: Function 'scale' takes 1 args but 2 provided"]
  /\ signature shift_args 1 = FuncDef (-1) 1 1
  /\ (required_count shift_args, positional_count shift_args) = (0, 2).
Proof. repeat split; vm_compute; reflexivity. Qed.

(** X18.  For a definition without positional-only parameters, the record
    kept (that of the last definition of its name in walk order) has, as
    total count, the number of positional parameters less one when the
    first is named [self], and, as required count, that total less the
    number of defaults. *)
Theorem signature_counts (pre post : list node) (name : string)
  (a : arguments) (body decorator_list : list node) (returns : option node)
  (type_params : list node) (lineno : Z) :
  posonlyargs a = [] ->
  forallb (fun n => negb (defines name n)) post = true ->
  snd (collect (pre ++ FunctionDef name a body decorator_list returns
                         type_params lineno :: post)%list) !! name
  = Some (FuncDef (required_count a) (positional_count a) lineno).
Proof.
  intros Hposonly Hpost. unfold collect.
  rewrite fold_left_app. simpl.
  rewrite fold_collect_defs_other by exact Hpost.
  destruct (fold_left collect_node pre ([], ∅)) as [calls defs]. simpl.
  rewrite lookup_insert_eq. f_equal. rewrite signature_spec.
  unfold required_count, positional_count, positional_parameters.
  rewrite Hposonly. simpl.
  destruct (args a) as [|a0 rest]; [reflexivity|].
  destruct (String.eqb (arg a0) "self"); reflexivity.
Qed.

Lemma signature_counts_witness :
  snd (collect ([leaf] ++ FunctionDef "area"
                            (positional ["self"; "w"; "h"] [leaf]) [] [] None [] 7
                  :: [leaf])%list) !! "area"
  = Some (FuncDef 1 2 7).
Proof.
  exact (signature_counts [leaf] [leaf] "area"
           (positional ["self"; "w"; "h"] [leaf]) [] [] None [] 7
           eq_refl eq_refl).
Defined.

End ArityClaims.

(** ** Method-signature pass *)

Module MethodsClaims.
Import Methods MethodsSpec.

(** The nested tests of one iteration, as one condition. *)
Lemma check_item_errors file a name item_args body decorator_list returns
  type_params lineno :
  check_item file a
    (FunctionDef name item_args body decorator_list returns type_params lineno)
  = if flagged name item_args decorator_list
    then add_error a (method_error file lineno name)
    else a.
Proof.
  unfold check_item, flagged. destruct (args item_args) as [|a0 rest];
    [reflexivity|].
  cbv zeta. destruct (String.eqb (arg a0) "self"); simpl; [reflexivity|].
  destruct (Py.startswith name "_"); simpl; [reflexivity|].
  destruct (has_decorator decorator_list); reflexivity.
Qed.

(** C3.  A method without parameters is reported even when it is a static
    method or has a leading underscore: both methods of [static_example]
    are. *)
Theorem parameterless_exempt_methods_reported :
  has_decorator [Name "staticmethod" Load 2] = true
  /\ Py.startswith "_reset" "_" = true
  /\ errors (check_tree "/p/m.py" (blank "/p") static_example)
     = ["METHOD ERROR in /p/m.py:3: Method 'unit' should have 'self' as first parameter";
        "METHOD ERROR in /p/m.py:5: Method '_reset' should have 'self' as first parameter"].
Proof. repeat split; vm_compute; reflexivity. Qed.

End MethodsClaims.

(** ** Syntax pass *)

Module SyntaxClaims.
Import SyntaxSpec.






End SyntaxClaims.

(** ** Entry points *)

Module EntryClaims.
Import EntrySpec.

(** The legacy [analyze_specific] files an unknown analysis type under
    errors, not warnings. *)
Lemma legacy_unknown_type_is_an_error :
  Py.mem "bogus" analysis_types = false
  /\ fst (Legacy.analyze_specific quiet_host (blank "/p", []) "bogus")
     = Returns (Result ["Unknown analysis type: bogus"] []).
Proof. split; vm_compute; reflexivity. Qed.

Lemma mem_cons_false x y ys :
  Py.mem x (y :: ys) = false -> String.eqb x y = false /\ Py.mem x ys = false.
Proof.
  unfold Py.mem; simpl. intros H. apply orb_false_elim in H. exact H.
Qed.

(** C1 (amended).  For an analysis type outside the six names, no pass
    runs and exactly one finding, "Unknown analysis type: ...", is
    produced: the enhanced analyzer returns it as the only warning with
    no error, the legacy analyzer returns it as the only error with no
    warning. *)
Theorem unknown_analysis_type (h : host) (s : pstate) (analysis_type : string) :
  Py.mem analysis_type analysis_types = false ->
  fst (Enhanced.analyze_specific h s analysis_type)
    = Returns (Result [] ["Unknown analysis type: " +:+ analysis_type])
  /\ fst (Legacy.analyze_specific h s analysis_type)
    = Returns (Result ["Unknown analysis type: " +:+ analysis_type] []).
Proof.
  intros H. unfold analysis_types in H.
  apply mem_cons_false in H as [Hsyntax H].
  apply mem_cons_false in H as [Himports H].
  apply mem_cons_false in H as [Hparameters H].
  apply mem_cons_false in H as [Hvariables H].
  apply mem_cons_false in H as [Hmethods H].
  apply mem_cons_false in H as [Hcomprehensive _].
  destruct s as [a sys_path].
  unfold Enhanced.analyze_specific, Legacy.analyze_specific.
  rewrite Hsyntax, Himports, Hparameters, Hvariables, Hmethods, Hcomprehensive.
  split; reflexivity.
Qed.

Lemma unknown_analysis_type_witness :
  fst (Enhanced.analyze_specific quiet_host (blank "/p", []) "style")
    = Returns (Result [] ["Unknown analysis type: " +:+ "style"])
  /\ fst (Legacy.analyze_specific quiet_host (blank "/p", []) "style")
    = Returns (Result ["Unknown analysis type: " +:+ "style"] []).
Proof. exact (unknown_analysis_type quiet_host (blank "/p", []) "style" eq_refl). Defined.

(** Both entry points of both analyzers behave on an analyzer with filled
    buckets as on one whose buckets are empty. *)
Lemma entry_points_ignore_buckets (h : host) (root : string)
  (old_errors old_warnings sys_path : list string) (analysis_type : string) :
  let used := Analyzer root old_errors old_warnings in
  let fresh := blank root in
  Legacy.analyze_all h (used, sys_path) = Legacy.analyze_all h (fresh, sys_path)
  /\ Legacy.analyze_specific h (used, sys_path) analysis_type
     = Legacy.analyze_specific h (fresh, sys_path) analysis_type
  /\ Enhanced.analyze_all h (used, sys_path)
     = Enhanced.analyze_all h (fresh, sys_path)
  /\ Enhanced.analyze_specific h (used, sys_path) analysis_type
     = Enhanced.analyze_specific h (fresh, sys_path) analysis_type.
Proof. repeat split. Qed.

End EntryClaims.

(** ** Import pass *)

Module ImportClaims.
Import ImportSpec.



End ImportClaims.

(** ** The module search path *)

Module PathClaims.
Import PathSpec.

(** A loop invariant carries over [for_each]. *)
Lemma for_each_invariant {X : Type} (P : pstate -> Prop)
  (body : pstate -> X -> pstate * option string) (xs : list X) :
  (forall s x, P s -> P (fst (body s x))) ->
  forall s, P s -> P (fst (for_each body s xs)).
Proof.
  intros Hbody. induction xs as [|x xs IH]; intros s Hs; simpl; [exact Hs|].
  specialize (Hbody s x Hs). destruct (body s x) as [s' [e|]]; simpl in *.
  - exact Hbody.
  - apply IH, Hbody.
Qed.

(** A loop whose body lets nothing escape lets nothing escape. *)
Lemma for_each_returns {X : Type}
  (body : pstate -> X -> pstate * option string) (xs : list X) :
  (forall s x, snd (body s x) = None) ->
  forall s, snd (for_each body s xs) = None.
Proof.
  intros Hbody. induction xs as [|x xs IH]; intros s; simpl; [reflexivity|].
  specialize (Hbody s x). destruct (body s x) as [s' [e|]]; simpl in *.
  - discriminate.
  - apply IH.
Qed.

Lemma legacy_file_root h s file_path :
  project_root (fst (fst (Legacy.check_import_file h s file_path)))
  = project_root (fst s).
Proof.
  destruct s as [a sys_path]. unfold Legacy.check_import_file.
  destruct (_ || _)%bool; [reflexivity|]. cbv zeta.
  destruct (import_module h sys_path _); try reflexivity.
  destruct (Py.contains "No module named" _); [|reflexivity].
  destruct (existsb _ _); reflexivity.
Qed.

Lemma legacy_loop_root h s files :
  project_root (fst (fst (for_each (Legacy.check_import_file h) s files)))
  = project_root (fst s).
Proof.
  apply (for_each_invariant
           (fun s' => project_root (fst s') = project_root (fst s)));
    [|reflexivity].
  intros s' x Hs'. rewrite legacy_file_root. exact Hs'.
Qed.

Lemma legacy_file_frame h s file_path :
  leaves_path_alone h (snd s) file_path ->
  frame (fst (Legacy.check_import_file h s file_path)) = frame s.
Proof.
  destruct s as [a sys_path]. unfold leaves_path_alone, ImportSpec.skipped.
  unfold Legacy.check_import_file. cbn [snd].
  destruct (_ || _)%bool; [reflexivity|]. intros Halone. cbv zeta.
  rewrite (Halone eq_refl).
  destruct (import_module h sys_path _); try reflexivity.
  destruct (Py.contains "No module named" _); [|reflexivity].
  destruct (existsb _ _); reflexivity.
Qed.

Lemma legacy_loop_frame h files :
  forall s,
    (forall file_path, In file_path files ->
       leaves_path_alone h (snd s) file_path) ->
    frame (fst (for_each (Legacy.check_import_file h) s files)) = frame s.
Proof.
  induction files as [|x files IH]; intros s Halone; [reflexivity|].
  cbn [for_each].
  pose proof (legacy_file_frame h s x (Halone x (or_introl eq_refl))) as Hx.
  destruct (Legacy.check_import_file h s x) as [s' [e|]]; cbn [fst] in *;
    [exact Hx|].
  rewrite IH, Hx; [reflexivity|].
  intros file_path Hin.
  replace (snd s') with (snd s) by (unfold frame in Hx; congruence).
  apply Halone. right; exact Hin.
Qed.

Lemma list_remove_head x l : Legacy.list_remove x (x :: l) = l.
Proof. simpl. rewrite String.eqb_refl. reflexivity. Qed.

Lemma mem_head x l : Py.mem x (x :: l) = true.
Proof. unfold Py.mem; simpl. rewrite String.eqb_refl. reflexivity. Qed.

(** The legacy pass takes one occurrence of the root out of [sys.path]:
    after importing a module that has put the root in front itself, the
    pass returns with the root still on the path. *)
Lemma legacy_path_after_insert :
  Legacy._get_python_files inserting_host = [["analyzers"; "test_runner.py"]]
  /\ Legacy._check_import_errors inserting_host
       (blank "/p", ["/usr/lib/python3"]) [["analyzers"; "test_runner.py"]]
     = ((blank "/p", ["/p"; "/usr/lib/python3"]), None)
  /\ Enhanced._check_import_errors inserting_host
       (blank "/p", ["/usr/lib/python3"]) [["analyzers"; "test_runner.py"]]
     = ((blank "/p", ["/usr/lib/python3"]), None).
Proof. repeat split; vm_compute; reflexivity. Qed.

(** X2.  As long as the modules the legacy pass imports leave [sys.path]
    as they find it: when the pass returns, [sys.path] is what it was;
    when an exception escapes from an import, the root is still in
    front. *)
Lemma legacy_path_after h a sys_path files :
  (forall file_path, In file_path files ->
     leaves_path_alone h (project_root a :: sys_path) file_path) ->
  let r := Legacy._check_import_errors h (a, sys_path) files in
  match snd r with
  | None => snd (fst r) = sys_path
  | Some _ => snd (fst r) = project_root a :: sys_path
  end.
Proof.
  intros Halone. unfold Legacy._check_import_errors.
  pose proof (legacy_loop_frame h files (a, project_root a :: sys_path) Halone)
    as Hf.
  destruct (for_each _ _ files) as [[a' sys_path'] [e|]];
    unfold frame in Hf; simpl in *; injection Hf as Hroot Hpath.
  - exact Hpath.
  - subst sys_path'. rewrite Hroot, mem_head. simpl.
    apply list_remove_head.
Qed.

Lemma legacy_path_after_witness :
  let h := ImportSpec.failing_host (RaisesException "bad call") in
  Legacy._check_import_errors h (blank "/p", ["/usr/lib/python3"]) [["tool.py"]]
  = ((Analyzer "/p" ["IMPORT ERROR in /p/tool.py: bad call"] [],
      ["/usr/lib/python3"]), None)
  /\ snd (fst (Legacy._check_import_errors h (blank "/p", ["/usr/lib/python3"])
                 [["tool.py"]]))
     = ["/usr/lib/python3"].
Proof.
  split; [vm_compute; reflexivity|].
  exact (legacy_path_after
           (ImportSpec.failing_host (RaisesException "bad call"))
           (blank "/p") ["/usr/lib/python3"] [["tool.py"]]
           (fun _ _ _ => eq_refl)).
Defined.

Lemma enhanced_module_frame h file s module_name :
  frame (fst (Enhanced._check_module_exists h file s module_name)) = frame s.
Proof.
  destruct s as [a sys_path]. unfold Enhanced._check_module_exists.
  destruct (import_module h _ module_name); try reflexivity.
  destruct (_ || _)%bool; reflexivity.
Qed.

Lemma enhanced_node_frame h file s n :
  frame (fst (Enhanced.check_import_node h file s n)) = frame s.
Proof.
  destruct n as [|names|module names| | | | | |]; try reflexivity.
  - simpl. apply (for_each_invariant (fun s' => frame s' = frame s));
      [|reflexivity].
    intros s' x Hs'. rewrite enhanced_module_frame. exact Hs'.
  - simpl. destruct module as [module|]; [|reflexivity].
    destruct (String.eqb module ""); [reflexivity|].
    apply enhanced_module_frame.
Qed.

Lemma enhanced_file_frame h s py_file :
  frame (fst (Enhanced.check_import_file h s py_file)) = frame s.
Proof.
  unfold Enhanced.check_import_file.
  destruct (parse_file h _) as [tree|e].
  - apply (for_each_invariant (fun s' => frame s' = frame s)); [|reflexivity].
    intros s' x Hs'. rewrite enhanced_node_frame. exact Hs'.
  - destruct s; reflexivity.
Qed.

(** X1.  The enhanced pass leaves [sys.path] as it found it, whether it
    returns or an exception escapes. *)
Lemma enhanced_path_after h s python_files :
  snd (fst (Enhanced._check_import_errors h s python_files)) = snd s.
Proof.
  unfold Enhanced._check_import_errors.
  pose proof (for_each_invariant (fun s' => frame s' = frame s)
                (Enhanced.check_import_file h) python_files) as Hf.
  specialize (Hf (fun s' x Hs' => eq_trans (enhanced_file_frame h s' x) Hs')
                s eq_refl).
  unfold frame in Hf. injection Hf as _ Hpath. exact Hpath.
Qed.

(** C8.  In the legacy pass the root is taken out of [sys.path] by the
    statement after the loop, not by a [finally] clause: when importing
    [tool.py] raises [SystemExit], the exception leaves the pass and the
    root stays in front of [sys.path]; the enhanced pass on the same
    project, where [tool.py] imports the module, restores the path. *)
Theorem legacy_root_left_on_search_path :
  let h := ImportSpec.failing_host (RaisesBaseException "SystemExit: 2") in
  Legacy._get_python_files h = [["tool.py"]]
  /\ Legacy._check_import_errors h (blank "/p", ["/usr/lib/python3"]) [["tool.py"]]
     = ((blank "/p", ["/p"; "/usr/lib/python3"]), Some "SystemExit: 2")
  /\ Enhanced._check_import_errors h (blank "/p", ["/usr/lib/python3"]) [["tool.py"]]
     = ((blank "/p", ["/usr/lib/python3"]), Some "SystemExit: 2").
Proof. repeat split; vm_compute; reflexivity. Qed.

End PathClaims.

(** ** Return and escape of the legacy entry points *)

Module TotalityClaims.
Import TotalitySpec.

(** Induction on directory listings. *)
Lemma entry_induction (P : entry -> Prop) :
  (forall f, P (File f)) ->
  (forall d sub, Forall P sub -> P (Dir d sub)) ->
  forall e, P e.
Proof.
  intros Hfile Hdir. fix IH 1. intros [f|d sub].
  - apply Hfile.
  - apply Hdir. induction sub as [|e sub IHsub]; constructor.
    + apply IH.
    + exact IHsub.
Qed.

Lemma no_python_names entries :
  existsb has_python_file entries = false ->
  List.filter (fun file => Py.endswith file ".py") (file_names entries) = [].
Proof.
  induction entries as [|e entries IH]; simpl; [reflexivity|].
  intros H. apply orb_false_elim in H as [He Hrest].
  destruct e as [f|d sub]; simpl in *.
  - rewrite He. apply IH, Hrest.
  - apply IH, Hrest.
Qed.

Lemma flat_map_nil {A B : Type} (f : A -> list B) (l : list A) :
  Forall (fun x => f x = []) l -> flat_map f l = [].
Proof.
  induction 1 as [|x l Hx _ IH]; simpl; [reflexivity|].
  rewrite Hx, IH. reflexivity.
Qed.

Lemma flat_map_flat_map {A B C : Type} (f : B -> list C) (g : A -> list B)
  (l : list A) :
  flat_map f (flat_map g l) = flat_map (fun x => flat_map f (g x)) l.
Proof.
  induction l as [|x l IH]; simpl; [reflexivity|].
  rewrite flat_map_app, IH. reflexivity.
Qed.

Lemma no_python_below keep e :
  has_python_file e = false ->
  forall root, flat_map python_in (os_walk_dir keep root e) = [].
Proof.
  induction e as [f|d sub IH] using entry_induction; intros He root;
    [reflexivity|].
  simpl in *. destruct (keep d); [|reflexivity].
  simpl. rewrite (no_python_names sub He). simpl.
  rewrite flat_map_flat_map. apply flat_map_nil.
  revert He. induction IH as [|e sub Hhead _ IHsub]; intros He; constructor.
  - simpl in He. apply orb_false_elim in He as [He _]. apply Hhead, He.
  - simpl in He. apply orb_false_elim in He as [_ He]. apply IHsub, He.
Qed.

(** File discovery finds nothing when the root cannot be listed and when
    no file below it is a Python file. *)
Lemma discovery_empty h :
  (listing h = None -> Legacy._get_python_files h = [])
  /\ (forall top, listing h = Some top ->
        existsb has_python_file top = false ->
        Legacy._get_python_files h = []).
Proof.
  unfold Legacy._get_python_files. split.
  - intros ->. reflexivity.
  - intros top -> Hnone. unfold os_walk.
    change (flat_map python_in
              (([], file_names top)
               :: flat_map (os_walk_dir (fun d => negb (Py.mem d Legacy.skip_dirs)) [])
                    top) = []).
    simpl. rewrite (no_python_names top Hnone). simpl.
    rewrite flat_map_flat_map. apply flat_map_nil.
    induction top as [|e top IH]; constructor.
    + simpl in Hnone. apply orb_false_elim in Hnone as [He _].
      apply no_python_below, He.
    + simpl in Hnone. apply orb_false_elim in Hnone as [_ Hrest].
      apply IH, Hrest.
Qed.

Lemma legacy_empty_imports h a sys_path :
  Legacy._check_import_errors h (a, sys_path) [] = ((a, sys_path), None).
Proof.
  unfold Legacy._check_import_errors, for_each.
  rewrite PathClaims.mem_head, PathClaims.list_remove_head. reflexivity.
Qed.

(** C9.  The legacy entry points can raise: in a project whose file
    [tool.py] calls [sys.exit(2)] when imported, the import pass lets
    [SystemExit] through its [except Exception] clauses, and
    [analyze_all], [analyze_specific("comprehensive")] and
    [analyze_specific("imports")] raise it instead of returning the
    mapping; the passes that import nothing return. *)
Theorem legacy_analyze_all_can_raise :
  Legacy._get_python_files exiting_host = [["tool.py"]]
  /\ fst (Legacy.analyze_all exiting_host (blank "/p", [])) = Raises "2"
  /\ fst (Legacy.analyze_specific exiting_host (blank "/p", []) "comprehensive")
     = Raises "2"
  /\ fst (Legacy.analyze_specific exiting_host (blank "/p", []) "imports")
     = Raises "2"
  /\ fst (Legacy.analyze_specific exiting_host (blank "/p", []) "syntax")
     = Returns (Result [] []).
Proof. repeat split; vm_compute; reflexivity. Qed.

(** X19.  With nothing to analyze, because the root cannot be listed or
    because no file below it has a name ending in [.py], the legacy
    discovery yields the empty sequence and every entry point returns the
    mapping with two empty lists, except that an analysis type
    [analyze_specific] does not know gives its one "Unknown analysis
    type" finding. *)
Theorem nothing_to_analyze (h : host) (s : pstate) (analysis_type : string) :
  listing h = None
  \/ (exists top, listing h = Some top /\ existsb has_python_file top = false) ->
  Legacy._get_python_files h = []
  /\ fst (Legacy.analyze_all h s) = Returns (Result [] [])
  /\ fst (Legacy.analyze_specific h s analysis_type)
     = Returns (Result
         (if Py.mem analysis_type legacy_types then []
          else ["Unknown analysis type: " +:+ analysis_type]) []).
Proof.
  intros Hcase.
  assert (Hnone : Legacy._get_python_files h = []).
  { destruct Hcase as [Hmissing|(top & Htop & Hno)].
    - apply discovery_empty, Hmissing.
    - apply (proj2 (discovery_empty h) top Htop Hno). }
  split; [exact Hnone|]. destruct s as [a sys_path].
  unfold Legacy.analyze_specific, Legacy.analyze_all.
  rewrite Hnone, !legacy_empty_imports. unfold legacy_types, Py.mem, existsb.
  destruct (String.eqb analysis_type "syntax"); [split; reflexivity|].
  destruct (String.eqb analysis_type "imports"); [split; reflexivity|].
  destruct (String.eqb analysis_type "parameters"); [split; reflexivity|].
  destruct (String.eqb analysis_type "methods"); [split; reflexivity|].
  destruct (String.eqb analysis_type "comprehensive"); split; reflexivity.
Qed.

Lemma nothing_to_analyze_witness :
  Legacy._get_python_files notes_host = []
  /\ fst (Legacy.analyze_all notes_host (blank "/p", [])) = Returns (Result [] [])
  /\ fst (Legacy.analyze_specific notes_host (blank "/p", []) "imports")
     = Returns (Result [] []).
Proof.
  exact (nothing_to_analyze notes_host (blank "/p", []) "imports"
           (or_intror (ex_intro _ _ (conj eq_refl eq_refl)))).
Defined.

End TotalityClaims.

(** ** The walk order *)

Module WalkFacts.

Lemma forest_count_app l1 l2 :
  forest_count (l1 ++ l2) = (forest_count l1 + forest_count l2)%nat.
Proof.
  unfold forest_count. induction l1 as [|x l1 IH]; simpl; [reflexivity|].
  rewrite IH. lia.
Qed.

Lemma forest_count_leaves {A : Type} (l : list A) :
  forest_count (map (fun _ => leaf) l) = length l.
Proof.
  unfold forest_count. induction l as [|x l IH]; simpl; [reflexivity|].
  rewrite IH. reflexivity.
Qed.

(** The local recursion of [node_count] is [forest_count]. *)
Lemma forest_count_unfold l :
  (fix forest (l : list node) : nat :=
     match l with
     | [] => O
     | x :: l' => (node_count x + forest l')%nat
     end) l = forest_count l.
Proof.
  unfold forest_count. induction l as [|x l IH]; simpl; [reflexivity|].
  rewrite IH. reflexivity.
Qed.

Lemma forest_count_cons x l :
  forest_count (x :: l) = (node_count x + forest_count l)%nat.
Proof. reflexivity. Qed.

Lemma forest_count_opt (o : option node) :
  forest_count (opt_list o)
  = match o with Some x => node_count x | None => O end.
Proof. destruct o; simpl; [|reflexivity]. unfold forest_count. simpl. lia. Qed.

Lemma node_count_other children :
  node_count (Other children) = S (forest_count children).
Proof. cbn [node_count]. rewrite (forest_count_unfold children). reflexivity. Qed.

Lemma node_count_arg (a : arg_of node) :
  node_count (arg_node a)
  = S match annotation a with Some x => node_count x | None => O end.
Proof.
  unfold arg_node. rewrite node_count_other, forest_count_opt. reflexivity.
Qed.

(** The local recursions of [node_count] over parameters and over
    keyword-only defaults count the nodes standing for them. *)
Lemma several_unfold (l : list (arg_of node)) :
  (fix several (l : list (arg_of node)) : nat :=
     match l with
     | [] => O
     | a0 :: l' =>
         (S match annotation a0 with
            | Some x => node_count x
            | None => O
            end + several l')%nat
     end) l = forest_count (map arg_node l).
Proof.
  induction l as [|a0 l IH]; [reflexivity|].
  rewrite IH. cbn [map]. rewrite forest_count_cons, node_count_arg.
  reflexivity.
Qed.

Lemma maybe_unfold (o : option (arg_of node)) :
  match o with
  | Some a0 => S match annotation a0 with
                 | Some x => node_count x
                 | None => O
                 end
  | None => O
  end = forest_count (map arg_node (opt_list o)).
Proof.
  destruct o as [a0|]; [|reflexivity].
  cbn [opt_list map]. rewrite forest_count_cons, node_count_arg.
  change (forest_count []) with O. lia.
Qed.

Lemma opts_unfold (l : list (option node)) :
  (fix opts (l : list (option node)) : nat :=
     match l with
     | [] => O
     | o :: l' =>
         (match o with
          | Some x => node_count x
          | None => O
          end + opts l')%nat
     end) l = forest_count (flat_map opt_list l).
Proof.
  induction l as [|o l IH]; [reflexivity|].
  rewrite IH. cbn [flat_map]. rewrite forest_count_app, forest_count_opt.
  reflexivity.
Qed.

(** A node counts for itself and for what lies below its children. *)
Lemma node_count_children n :
  node_count n = S (forest_count (iter_child_nodes n)).
Proof.
  destruct n as [body|names|module names|targets value
                |name a body decorator_list returns type_params lineno
                |name bases keywords body decorator_list type_params lineno
                |func args keywords lineno|id ctx lineno|children];
    cbn [node_count iter_child_nodes];
    rewrite ?(forest_count_unfold body), ?(forest_count_unfold targets),
      ?(forest_count_unfold decorator_list), ?(forest_count_unfold type_params),
      ?(forest_count_unfold bases), ?(forest_count_unfold args),
      ?(forest_count_unfold keywords), ?(forest_count_unfold children);
    rewrite ?forest_count_cons, ?forest_count_app, ?forest_count_cons,
      ?forest_count_app, ?forest_count_app, ?forest_count_app,
      ?forest_count_leaves, ?forest_count_opt;
    try reflexivity.
  - change (forest_count []) with O. lia.
  - rewrite (forest_count_unfold (defaults a)),
      (several_unfold (posonlyargs a)), (several_unfold (args a)),
      (several_unfold (kwonlyargs a)), (maybe_unfold (vararg a)),
      (maybe_unfold (kwarg a)), (opts_unfold (kw_defaults a)).
    unfold arguments_node. rewrite node_count_other, !forest_count_app. lia.
  - lia.
  - lia.
Qed.

Lemma node_count_pos n : (1 <= node_count n)%nat.
Proof. rewrite node_count_children. lia. Qed.

Lemma forest_count_length l : (length l <= forest_count l)%nat.
Proof.
  induction l as [|x l IH]; simpl; [lia|].
  pose proof (node_count_pos x).
  change (forest_count (x :: l)) with (node_count x + forest_count l)%nat. lia.
Qed.

(** Once the fuel covers the nodes below the queue, more fuel changes
    nothing: the walk has emptied the queue. *)
Lemma walk_queue_fuel n :
  forall todo fuel,
    (forest_count todo <= n)%nat -> (n <= fuel)%nat ->
    walk_queue fuel todo = walk_queue n todo.
Proof.
  induction n as [|n IH]; intros todo fuel Hcount Hfuel.
  - pose proof (forest_count_length todo).
    destruct todo; [|simpl in *; lia]. destruct fuel; reflexivity.
  - destruct todo as [|x todo]; [destruct fuel; reflexivity|].
    destruct fuel as [|fuel]; [lia|]. simpl. f_equal.
    apply IH; [|lia].
    rewrite forest_count_app.
    change (forest_count (x :: todo))
      with (node_count x + forest_count todo)%nat in Hcount.
    rewrite node_count_children in Hcount. lia.
Qed.

(** The walk yields every node it counts. *)
Lemma walk_queue_length n :
  forall todo, forest_count todo = n -> length (walk_queue n todo) = n.
Proof.
  induction n as [|n IH]; intros todo Hcount; [reflexivity|].
  destruct todo as [|x todo]; [discriminate|]. simpl. f_equal.
  apply IH. rewrite forest_count_app.
  change (forest_count (x :: todo))
    with (node_count x + forest_count todo)%nat in Hcount.
  rewrite node_count_children in Hcount. lia.
Qed.

Lemma walk_length tree : length (walk tree) = node_count tree.
Proof.
  unfold walk. apply walk_queue_length. unfold forest_count. simpl. lia.
Qed.

(** The nodes waiting in the queue are yielded first, in order. *)
Lemma walk_queue_front :
  forall front back fuel,
    (length front <= fuel)%nat ->
    exists rest, walk_queue fuel (front ++ back) = (front ++ rest)%list.
Proof.
  induction front as [|x front IH]; intros back fuel Hfuel.
  - eexists; reflexivity.
  - destruct fuel as [|fuel]; [simpl in Hfuel; lia|].
    simpl. rewrite <- app_assoc.
    destruct (IH (back ++ iter_child_nodes x)%list fuel) as [rest ->];
      [simpl in Hfuel; lia|].
    eexists; reflexivity.
Qed.

(** The module node comes first, then its statements in file order, then
    everything below them. *)
Lemma walk_module body :
  exists rest, walk (Module body) = (Module body :: body ++ rest)%list.
Proof.
  unfold walk. rewrite node_count_children. simpl.
  destruct (walk_queue_front body [] (forest_count body)) as [rest Hrest];
    [apply forest_count_length|].
  rewrite app_nil_r in Hrest. exists rest. rewrite Hrest. reflexivity.
Qed.

Lemma forest_count_children nodes :
  forest_count nodes
  = (length nodes + forest_count (flat_map iter_child_nodes nodes))%nat.
Proof.
  induction nodes as [|x nodes IH]; [reflexivity|].
  cbn [flat_map length]. rewrite forest_count_cons, forest_count_app, IH,
    node_count_children. lia.
Qed.

Lemma forest_count_levels k :
  forall nodes,
    forest_count nodes
    = (length (above k nodes) + forest_count (level k nodes))%nat.
Proof.
  induction k as [|k IH]; intros nodes; [reflexivity|].
  cbn [above level]. rewrite length_app, <- Nat.add_assoc, <- IH.
  apply forest_count_children.
Qed.

(** Once the nodes waiting in the queue are yielded, the queue holds what
    stood behind them and then their children. *)
Lemma walk_queue_children :
  forall front back fuel,
    (length front <= fuel)%nat ->
    walk_queue fuel (front ++ back)
    = (front ++ walk_queue (fuel - length front)
                  (back ++ flat_map iter_child_nodes front))%list.
Proof.
  induction front as [|x front IH]; intros back fuel Hfuel.
  - simpl. rewrite Nat.sub_0_r, app_nil_r. reflexivity.
  - destruct fuel as [|fuel]; [simpl in Hfuel; lia|].
    cbn [walk_queue app length flat_map Nat.sub]. f_equal.
    rewrite <- app_assoc, IH by (simpl in Hfuel; lia).
    rewrite <- app_assoc. reflexivity.
Qed.

(** The walk is breadth-first: it yields the nodes level by level. *)
Lemma walk_queue_levels k :
  forall nodes fuel,
    (forest_count nodes <= fuel)%nat ->
    walk_queue fuel nodes
    = (above k nodes
       ++ walk_queue (fuel - length (above k nodes)) (level k nodes))%list.
Proof.
  induction k as [|k IH]; intros nodes fuel Hfuel.
  - simpl. rewrite Nat.sub_0_r. reflexivity.
  - pose proof (forest_count_children nodes) as Hcount.
    cbn [above level].
    rewrite <- (app_nil_r nodes) at 1.
    rewrite walk_queue_children by lia. cbn [app].
    rewrite IH by lia.
    rewrite <- app_assoc, length_app. do 3 f_equal. lia.
Qed.

Lemma walk_levels tree k :
  walk tree
  = (above k [tree]
     ++ walk_queue (node_count tree - length (above k [tree])) (level k [tree]))%list.
Proof.
  unfold walk. apply walk_queue_levels. unfold forest_count. simpl. lia.
Qed.

(** A node of a level is reached after the levels above it and the nodes
    to its left, and before everything else. *)
Lemma walk_level_split tree k earlier n later :
  level k [tree] = (earlier ++ n :: later)%list ->
  exists post, walk tree = ((above k [tree] ++ earlier) ++ n :: post)%list.
Proof.
  intros Hlevel. rewrite (walk_levels tree k), Hlevel.
  pose proof (forest_count_levels k [tree]) as Hcount.
  pose proof (forest_count_length (level k [tree])) as Hlen.
  rewrite Hlevel in Hcount, Hlen. rewrite length_app in Hlen. simpl in Hlen.
  assert (Htree : forest_count [tree] = node_count tree)
    by (unfold forest_count; simpl; lia).
  destruct (walk_queue_front (earlier ++ [n]) later
              (node_count tree - length (above k [tree]))) as [rest Hrest].
  { rewrite length_app. simpl. lia. }
  rewrite <- app_assoc in Hrest. cbn [app] in Hrest. rewrite Hrest.
  exists rest. rewrite <- !app_assoc. reflexivity.
Qed.

Lemma in_above k :
  forall nodes d,
    In d (above k nodes) <-> exists j, (j < k)%nat /\ In d (level j nodes).
Proof.
  induction k as [|k IH]; intros nodes d.
  - simpl. split; [intros []|intros (j & Hj & _); lia].
  - cbn [above]. rewrite in_app_iff, IH. split.
    + intros [Hd|(j & Hj & Hd)].
      * exists O. split; [lia|exact Hd].
      * exists (S j). split; [lia|exact Hd].
    + intros ([|j] & Hj & Hd).
      * left; exact Hd.
      * right. exists j. split; [lia|exact Hd].
Qed.

End WalkFacts.

(** ** Undefined-name pass *)

Module UndefinedClaims.
Import Undefined UndefinedSpec.

Lemma elem_of_add_all (x : string) (xs : list string) (s : gset string) :
  x ∈ add_all xs s <-> x ∈ s \/ In x xs.
Proof.
  unfold add_all. revert s. induction xs as [|y xs IH]; intros s; simpl.
  - tauto.
  - rewrite IH. rewrite elem_of_union, elem_of_singleton.
    split; [intros [[?|?]|?]|intros [?|[?|?]]]; auto.
Qed.

(** A visit extends the known names by what the node binds. *)
Lemma visit_known isupper file defined_names a n (x : string) :
  x ∈ fst (visit isupper file (defined_names, a) n)
  <-> x ∈ defined_names \/ In x (bound_names n).
Proof.
  destruct n as [| | | | | | |id ctx lineno|]; simpl;
    rewrite ?elem_of_add_all, ?elem_of_union, ?elem_of_singleton;
    try tauto.
  - split; [intros [?|?]|intros [?|[?|[]]]]; auto.
  - split; [intros [?|?]|intros [?|[?|[]]]]; auto.
  - destruct ctx; simpl; try tauto.
    destruct (bool_decide _); simpl; [tauto|].
    destruct (negb _); simpl; tauto.
Qed.

(** The known names after a prefix of the walk: the seed and whatever
    the nodes of the prefix bind. *)
Lemma known_after isupper file (pre : list node) defined_names a
  (x : string) :
  x ∈ fst (fold_left (visit isupper file) pre (defined_names, a))
  <-> x ∈ defined_names \/ exists d, In d pre /\ In x (bound_names d).
Proof.
  revert defined_names a. induction pre as [|n pre IH]; intros defined_names a.
  - simpl. split; [auto|]. intros [?|(d & [] & _)]. assumption.
  - cbn [fold_left].
    destruct (visit isupper file (defined_names, a) n) as [defined' a'] eqn:Hn.
    rewrite IH.
    pose proof (visit_known isupper file defined_names a n x) as Hk.
    rewrite Hn in Hk. simpl in Hk. rewrite Hk. split.
    + intros [[Hx|Hx]|(d & Hd & Hx)].
      * left; exact Hx.
      * right; exists n; split; [left; reflexivity|exact Hx].
      * right; exists d; split; [right; exact Hd|exact Hx].
    + intros [Hx|(d & [<-|Hd] & Hx)].
      * left; left; exact Hx.
      * left; right; exact Hx.
      * right; exists d; split; assumption.
Qed.

(** A name assigned inside a function body is reported at a module-level
    use, whether the function comes after or before the use. *)
Lemma nested_definition_not_known :
  In (Assign [Name "count" Store 3] leaf) (walk defined_later_and_deeper)
  /\ warnings (check_tree Py.isupper ∅ "/p/m.py" (blank "/p") defined_later_and_deeper)
     = ["UNDEFINED VARIABLE in /p/m.py:1: 'count' may be undefined"]
  /\ warnings (check_tree Py.isupper Legacy.seed "/p/m.py" (blank "/p")
                 defined_later_and_deeper)
     = ["UNDEFINED VARIABLE in /p/m.py:1: 'count' may be undefined"]
  /\ In (Assign [Name "count" Store 3] leaf) (walk defined_earlier_and_deeper)
  /\ warnings (check_tree Py.isupper ∅ "/p/m.py" (blank "/p") defined_earlier_and_deeper)
     = ["UNDEFINED VARIABLE in /p/m.py:4: 'count' may be undefined"].
Proof.
  split; [vm_compute; tauto|]. split; [vm_compute; reflexivity|].
  split; [vm_compute; reflexivity|]. split; [vm_compute; tauto|].
  vm_compute; reflexivity.
Qed.

(** At equal depth the order of the walk decides: the base class of
    [class A(base)] is reported when the class stands before
    [def f(): base = 1] and known when it stands after it. *)
Lemma same_depth_follows_walk_order :
  level 2 [used_before_at_same_depth]
  = [Name "base" Load 1; leaf; arguments_node (positional [] []);
     Assign [Name "base" Store 3] leaf]
  /\ warnings (check_tree Py.isupper ∅ "/p/m.py" (blank "/p") used_before_at_same_depth)
     = ["UNDEFINED VARIABLE in /p/m.py:1: 'base' may be undefined"]
  /\ level 2 [bound_before_at_same_depth]
     = [arguments_node (positional [] []); Assign [Name "base" Store 2] leaf;
        Name "base" Load 3; leaf]
  /\ warnings (check_tree Py.isupper ∅ "/p/m.py" (blank "/p") bound_before_at_same_depth)
     = [].
Proof. repeat split; vm_compute; reflexivity. Qed.

(** C4 (amended).  The walk yields the nodes of a tree depth by depth, and
    those of one depth from left to right.  At a value-reading use of [id]
    that stands at depth [k], [id] is known exactly when it is in the seed,
    or bound (import, plain assignment target, function or class
    definition) by a node of a smaller depth, or bound by a node of the
    same depth to the left of the use; bindings that lie deeper, or at the
    same depth to the right, do not count.  A known name leaves the state
    unchanged, an unknown one that is not exempt appends the warning. *)
Theorem known_names_follow_walk_order (isupper : string -> bool)
  (seed : gset string) (file : string)
  (a : analyzer) (tree : node) (k : nat) (earlier later : list node)
  (id : string) (lineno : Z) :
  level k [tree] = (earlier ++ Name id Load lineno :: later)%list ->
  let use := Name id Load lineno in
  let pre := (above k [tree] ++ earlier)%list in
  let before := fold_left (visit isupper file) pre (seed, a) in
  (exists post,
     walk tree = (pre ++ use :: post)%list
     /\ check_tree isupper seed file a tree
        = snd (fold_left (visit isupper file) post (visit isupper file before use)))
  /\ (id ∈ fst before
      <-> id ∈ seed
          \/ (exists j d, (j < k)%nat /\ In d (level j [tree])
                          /\ In id (bound_names d))
          \/ (exists d, In d earlier /\ In id (bound_names d)))
  /\ (id ∈ fst before -> visit isupper file before use = before)
  /\ (id ∉ fst before -> Py.startswith id "_" || isupper id = false ->
      visit isupper file before use
      = (fst before, add_warning (snd before) (undefined_warning file lineno id))).
Proof.
  intros Hlevel use pre before.
  split; [|split; [|split]].
  - destruct (WalkFacts.walk_level_split tree k earlier use later Hlevel)
      as [post Hwalk].
    exists post. split; [exact Hwalk|].
    unfold check_tree. rewrite Hwalk, fold_left_app. reflexivity.
  - unfold before, pre. rewrite known_after. split.
    + intros [Hseed|(d & Hd & Hid)]; [left; exact Hseed|right].
      apply in_app_iff in Hd as [Hd|Hd].
      * left. apply WalkFacts.in_above in Hd as (j & Hj & Hd).
        exists j, d. auto.
      * right. exists d. auto.
    + intros [Hseed|[(j & d & Hj & Hd & Hid)|(d & Hd & Hid)]];
        [left; exact Hseed| |].
      * right. exists d. split; [|exact Hid]. apply in_app_iff. left.
        apply WalkFacts.in_above. exists j. auto.
      * right. exists d. split; [|exact Hid]. apply in_app_iff. right.
        exact Hd.
  - destruct before as [defined_names a'] eqn:Hb. simpl. intros Hin.
    rewrite bool_decide_eq_true_2 by exact Hin. reflexivity.
  - destruct before as [defined_names a'] eqn:Hb. simpl. intros Hnot Hexempt.
    rewrite bool_decide_eq_false_2 by exact Hnot. rewrite Hexempt. reflexivity.
Qed.

Lemma known_names_follow_walk_order_witness :
  let tree := defined_later_at_module_level in
  let before := fold_left (visit Py.isupper "/p/m.py") (above 3 [tree] ++ []) (∅, blank "/p") in
  In (Assign [Name "count" Store 3] leaf) (level 1 [tree])
  /\ visit Py.isupper "/p/m.py" before (Name "count" Load 2) = before.
Proof.
  intros tree before.
  destruct (known_names_follow_walk_order Py.isupper ∅ "/p/m.py" (blank "/p")
              tree 3
              [] [leaf] "count" 2 eq_refl) as (_ & Hknown & Hsame & _).
  split; [right; left; reflexivity|].
  apply Hsame, Hknown. right. left.
  exists 1%nat, (Assign [Name "count" Store 3] leaf).
  split; [lia|]. split; [right; left; reflexivity|left; reflexivity].
Defined.

End UndefinedClaims.

(** ** Successive calls on one analyzer *)

Module SessionClaims.
Import EntrySpec.

Lemma fold_left_root {X : Type} (f : analyzer -> X -> analyzer) (xs : list X) :
  (forall a x, project_root (f a x) = project_root a) ->
  forall a, project_root (fold_left f xs a) = project_root a.
Proof.
  intros Hf. induction xs as [|x xs IH]; intros a; simpl; [reflexivity|].
  rewrite IH. apply Hf.
Qed.

Lemma arity_root verb file a tree :
  project_root (Arity.check_tree verb file a tree) = project_root a.
Proof.
  unfold Arity.check_tree. destruct (Arity.collect (walk tree)) as [calls defs].
  apply fold_left_root. intros a0 c. unfold Arity.check_call.
  destruct (defs !! Arity.call_name c); [|reflexivity].
  simpl. destruct (_ <? _); [reflexivity|]. destruct (_ >? _); reflexivity.
Qed.

Lemma undefined_root isupper seed file a tree :
  project_root (Undefined.check_tree isupper seed file a tree) = project_root a.
Proof.
  unfold Undefined.check_tree.
  generalize (walk tree) as nodes. intros nodes. revert seed a.
  induction nodes as [|n nodes IH]; intros seed a; [reflexivity|].
  cbn [fold_left].
  destruct (Undefined.visit isupper file (seed, a) n) as [seed' a'] eqn:Hn.
  rewrite IH.
  destruct n as [| | | | | | |id ctx lineno|]; simpl in Hn;
    try (injection Hn as _ <-; reflexivity).
  destruct ctx; try (injection Hn as _ <-; reflexivity).
  destruct (bool_decide _); [injection Hn as _ <-; reflexivity|].
  destruct (negb _); injection Hn as _ <-; reflexivity.
Qed.

Lemma methods_root file a tree :
  project_root (Methods.check_tree file a tree) = project_root a.
Proof.
  unfold Methods.check_tree. apply fold_left_root. intros a0 n.
  destruct n as [| | | | |name bases keywords body decorator_list type_params lineno
                | | |];
    try reflexivity.
  simpl. apply fold_left_root. intros a1 item.
  destruct item as [| | | |name' item_args ? decos ? ? ?| | | |];
    try reflexivity.
  simpl. destruct (args item_args); [reflexivity|].
  destruct (_ && _)%bool; [|reflexivity]. destruct (negb _); reflexivity.
Qed.

Ltac per_file_root :=
  intros a0 file_path;
  match goal with
  | |- project_root (?f _ _ _) = _ => unfold f
  end;
  destruct (parse_file _ _) as [tree|[]];
  first [ reflexivity | apply arity_root | apply undefined_root
        | apply methods_root ].

Lemma legacy_all_root h s :
  project_root (fst (snd (Legacy.analyze_all h s))) = project_root (fst s).
Proof.
  destruct s as [a sys_path]. unfold Legacy.analyze_all.
  set (files := Legacy._get_python_files h).
  set (a1 := Legacy._check_syntax_errors h (reset a) files).
  assert (H1 : project_root a1 = project_root a).
  { unfold a1, Legacy._check_syntax_errors. rewrite fold_left_root; [reflexivity|].
    per_file_root. }
  unfold Legacy._check_import_errors.
  pose proof (PathClaims.legacy_loop_root h (a1, project_root a1 :: sys_path) files)
    as H2.
  destruct (for_each _ _ files) as [[a2 sys_path2] [e|]]; simpl in H2; simpl.
  - congruence.
  - destruct (Py.mem _ _); simpl;
      unfold Legacy._check_class_method_signatures,
        Legacy._check_undefined_variables, Legacy._check_parameter_mismatches;
      rewrite !fold_left_root; try congruence; per_file_root.
Qed.

Lemma legacy_specific_root h s analysis_type :
  project_root (fst (snd (Legacy.analyze_specific h s analysis_type)))
  = project_root (fst s).
Proof.
  destruct s as [a sys_path]. unfold Legacy.analyze_specific.
  set (files := Legacy._get_python_files h).
  destruct (String.eqb analysis_type "syntax").
  { simpl. unfold Legacy._check_syntax_errors.
    rewrite fold_left_root; [reflexivity|per_file_root]. }
  destruct (String.eqb analysis_type "imports").
  { unfold Legacy._check_import_errors.
    pose proof (PathClaims.legacy_loop_root h
                  (reset a, project_root (reset a) :: sys_path) files) as H2.
    destruct (for_each _ _ files) as [[a2 sys_path2] [e|]]; simpl in H2; simpl.
    - exact H2.
    - destruct (Py.mem _ _); exact H2. }
  destruct (String.eqb analysis_type "parameters").
  { simpl. unfold Legacy._check_parameter_mismatches.
    rewrite fold_left_root; [reflexivity|per_file_root]. }
  destruct (String.eqb analysis_type "methods").
  { simpl. unfold Legacy._check_class_method_signatures.
    rewrite fold_left_root; [reflexivity|per_file_root]. }
  destruct (String.eqb analysis_type "comprehensive").
  { apply (legacy_all_root h (reset a, sys_path)). }
  reflexivity.
Qed.

Lemma enhanced_imports_root h s python_files :
  project_root (fst (fst (Enhanced._check_import_errors h s python_files)))
  = project_root (fst s).
Proof.
  unfold Enhanced._check_import_errors.
  pose proof (PathClaims.for_each_invariant
                (fun s' => PathSpec.frame s' = PathSpec.frame s)
                (Enhanced.check_import_file h) python_files) as Hf.
  specialize (Hf (fun s' x Hs' =>
                    eq_trans (PathClaims.enhanced_file_frame h s' x) Hs')
                s eq_refl).
  unfold PathSpec.frame in Hf. injection Hf as Hroot _. exact Hroot.
Qed.

Lemma enhanced_all_root h s :
  project_root (fst (snd (Enhanced.analyze_all h s))) = project_root (fst s).
Proof.
  destruct s as [a sys_path]. unfold Enhanced.analyze_all.
  change (project_root (reset a)) with (project_root a).
  set (files := Enhanced.get_python_files h (project_root a)).
  set (a1 := Enhanced._check_syntax_errors h (reset a) files).
  assert (H1 : project_root a1 = project_root a).
  { unfold a1, Enhanced._check_syntax_errors.
    rewrite fold_left_root; [reflexivity|per_file_root]. }
  pose proof (enhanced_imports_root h (a1, sys_path) files) as H2.
  destruct (Enhanced._check_import_errors h _ files) as [[a2 sys_path2] [e|]];
    simpl in *.
  - congruence.
  - unfold Enhanced._check_class_method_signatures,
      Enhanced._check_undefined_variables, Enhanced._check_parameter_mismatches.
    rewrite !fold_left_root; try congruence; per_file_root.
Qed.

Lemma enhanced_specific_root h s analysis_type :
  project_root (fst (snd (Enhanced.analyze_specific h s analysis_type)))
  = project_root (fst s).
Proof.
  destruct s as [a sys_path]. unfold Enhanced.analyze_specific.
  change (project_root (reset a)) with (project_root a).
  set (files := Enhanced.get_python_files h (project_root a)).
  destruct (String.eqb analysis_type "syntax").
  { simpl. unfold Enhanced._check_syntax_errors.
    rewrite fold_left_root; [reflexivity|per_file_root]. }
  destruct (String.eqb analysis_type "imports").
  { pose proof (enhanced_imports_root h (reset a, sys_path) files) as H2.
    destruct (Enhanced._check_import_errors h _ files) as [[a2 sys_path2] [e|]];
      simpl in *; exact H2. }
  destruct (String.eqb analysis_type "parameters").
  { simpl. unfold Enhanced._check_parameter_mismatches.
    rewrite fold_left_root; [reflexivity|per_file_root]. }
  destruct (String.eqb analysis_type "variables").
  { simpl. unfold Enhanced._check_undefined_variables.
    rewrite fold_left_root; [reflexivity|per_file_root]. }
  destruct (String.eqb analysis_type "methods").
  { simpl. unfold Enhanced._check_class_method_signatures.
    rewrite fold_left_root; [reflexivity|per_file_root]. }
  reflexivity.
Qed.

(** A sequence of calls never changes the root the analyzer was built
    with. *)
Lemma session_root (call : pstate -> request -> outcome * pstate) :
  (forall s r, project_root (fst (snd (call s r))) = project_root (fst s)) ->
  forall earlier s,
    project_root (fst (session call s earlier)) = project_root (fst s).
Proof.
  intros Hcall. unfold session.
  induction earlier as [|r earlier IH]; intros s; simpl; [reflexivity|].
  rewrite IH. apply Hcall.
Qed.

Lemma call_ignores_buckets h a sys_path r :
  legacy_call h (a, sys_path) r = legacy_call h (blank (project_root a), sys_path) r
  /\ enhanced_call h (a, sys_path) r
     = enhanced_call h (blank (project_root a), sys_path) r.
Proof. destruct a, r; split; reflexivity. Qed.

(** C10.  Both entry points of both analyzers start by emptying the two
    buckets.  After any sequence of earlier calls on an analyzer, a call of
    [analyze_all] or [analyze_specific] behaves as the same call on an
    analyzer just built for the same root with empty buckets (under the
    [sys.path] the earlier calls left): what it returns holds the findings
    of this call only. *)
Theorem buckets_reset_on_entry (h : host) (a : analyzer)
  (sys_path : list string) (earlier : list request) (r : request) :
  let fresh := blank (project_root a) in
  let used_legacy := session (legacy_call h) (a, sys_path) earlier in
  let used_enhanced := session (enhanced_call h) (a, sys_path) earlier in
  legacy_call h used_legacy r = legacy_call h (fresh, snd used_legacy) r
  /\ enhanced_call h used_enhanced r = enhanced_call h (fresh, snd used_enhanced) r.
Proof.
  intros fresh used_legacy used_enhanced.
  assert (Hl : project_root (fst used_legacy) = project_root a).
  { apply (session_root (legacy_call h)). intros s [|analysis_type].
    - apply legacy_all_root.
    - apply legacy_specific_root. }
  assert (He : project_root (fst used_enhanced) = project_root a).
  { apply (session_root (enhanced_call h)). intros s [|analysis_type].
    - apply enhanced_all_root.
    - apply enhanced_specific_root. }
  destruct used_legacy as [al pl], used_enhanced as [ae pe]. simpl in *.
  unfold fresh. rewrite <- Hl at 1. rewrite <- He.
  split; apply call_ignores_buckets.
Qed.

End SessionClaims.

(** * Further properties *)

(** ** File discovery *)

Module DiscoveryClaims.
Import DiscoverySpec TotalitySpec.

Lemma in_file_names entries f : In f (file_names entries) <-> In (File f) entries.
Proof.
  unfold file_names. rewrite in_flat_map. split.
  - intros (e & He & Hf). destruct e as [g|d sub]; simpl in Hf; [|tauto].
    destruct Hf as [<-|[]]. exact He.
  - intros H. exists (File f). split; [exact H|left; reflexivity].
Qed.

Lemma in_python_in root entries p :
  In p (python_in (root, file_names entries))
  <-> exists file, p = (root ++ [file])%list /\ In (File file) entries
                   /\ Py.endswith file ".py" = true.
Proof.
  unfold python_in. rewrite in_map_iff. split.
  - intros (file & <- & Hin). apply filter_In in Hin as [Hin Hpy].
    exists file. rewrite <- in_file_names. auto.
  - intros (file & -> & Hin & Hpy). exists file. split; [reflexivity|].
    apply filter_In. rewrite in_file_names. auto.
Qed.

Lemma in_walk_dir keep e :
  forall root p,
    In p (flat_map python_in (os_walk_dir keep root e))
    <-> exists d sub dirs file,
          e = Dir d sub /\ keep d = true
          /\ p = (root ++ d :: dirs ++ [file])%list
          /\ file_at sub dirs file
          /\ Py.endswith file ".py" = true
          /\ forallb keep dirs = true.
Proof.
  induction e as [f|d sub IH] using TotalityClaims.entry_induction; intros root p.
  - simpl. split; [tauto|]. intros (? & ? & ? & ? & [=] & _).
  - cbn [os_walk_dir]. destruct (keep d) eqn:Hkeep.
    + cbn [flat_map]. rewrite in_app_iff, in_python_in,
        TotalityClaims.flat_map_flat_map, in_flat_map. split.
      * intros [(file & -> & Hin & Hpy)|(e & He & Hp)].
        -- exists d, sub, [], file. rewrite <- app_assoc. simpl. auto 10.
        -- rewrite List.Forall_forall in IH. apply (IH e He) in Hp.
           destruct Hp as (d' & sub' & dirs & file & -> & Hk & -> & Hat & Hpy & Hall).
           exists d, sub, (d' :: dirs), file. rewrite <- app_assoc. simpl.
           rewrite Hk, Hall. split; [reflexivity|]. split; [exact Hkeep|].
           split; [reflexivity|]. split; [eauto|]. auto.
      * intros (d0 & sub0 & dirs & file & [= <- <-] & _ & -> & Hat & Hpy & Hall).
        destruct dirs as [|d' dirs]; simpl in Hat.
        -- left. exists file. rewrite <- app_assoc. auto.
        -- right. destruct Hat as (sub' & Hin & Hat). exists (Dir d' sub').
           split; [exact Hin|]. rewrite List.Forall_forall in IH. apply (IH _ Hin).
           simpl in Hall. apply andb_prop in Hall as [Hk Hall].
           exists d', sub', dirs, file. rewrite <- app_assoc. simpl. auto 10.
    + simpl. split; [tauto|].
      intros (d0 & sub0 & ? & ? & [= <- <-] & Hk & _). congruence.
Qed.

Lemma legacy_files_unfold h :
  Legacy._get_python_files h
  = match listing h with
    | None => []
    | Some top =>
        flat_map python_in
          (os_walk (fun d => negb (Py.mem d Legacy.skip_dirs)) top)
    end.
Proof. reflexivity. Qed.

(** X4.  The legacy file discovery returns exactly the regular files whose name
    ends in [.py] and that are reached from the root through directories
    none of which is in the skip list. *)
Theorem legacy_discovery_exact (h : host) (p : path) :
  In p (Legacy._get_python_files h)
  <-> exists top dirs file,
        listing h = Some top
        /\ p = (dirs ++ [file])%list
        /\ file_at top dirs file
        /\ Py.endswith file ".py" = true
        /\ forallb (fun d => negb (Py.mem d Legacy.skip_dirs)) dirs = true.
Proof.
  rewrite legacy_files_unfold. destruct (listing h) as [top|].
  - set (keep := fun d => negb (Py.mem d Legacy.skip_dirs)).
    unfold os_walk. cbn [flat_map].
    rewrite in_app_iff, in_python_in, TotalityClaims.flat_map_flat_map, in_flat_map.
    split.
    + intros [(file & -> & Hin & Hpy)|(e & He & Hp)].
      * exists top, [], file. simpl. auto.
      * apply in_walk_dir in Hp.
        destruct Hp as (d & sub & dirs & file & -> & Hk & -> & Hat & Hpy & Hall).
        exists top, (d :: dirs), file. simpl. fold keep. rewrite Hk, Hall.
        split; [reflexivity|]. split; [reflexivity|]. split; [eauto|]. auto.
    + intros (top0 & dirs & file & [= <-] & -> & Hat & Hpy & Hall).
      destruct dirs as [|d dirs]; simpl in Hat.
      * left. exists file. auto.
      * right. destruct Hat as (sub & Hin & Hat). exists (Dir d sub).
        split; [exact Hin|]. apply in_walk_dir.
        simpl in Hall. apply andb_prop in Hall as [Hk Hall].
        exists d, sub, dirs, file. auto 10.
  - simpl. split; [tauto|]. intros (? & ? & ? & [=] & _).
Qed.

Lemma in_glob_dir matches root entries p :
  In p (glob_dir matches root entries)
  <-> exists e, In e entries /\ matches (entry_name e) = true
                /\ p = (root ++ [entry_name e])%list.
Proof.
  unfold glob_dir. rewrite in_flat_map. split.
  - intros (e & He & Hp). exists e. destruct (matches (entry_name e)); simpl in Hp.
    + destruct Hp as [<-|[]]. auto.
    + tauto.
  - intros (e & He & Hm & ->). exists e. rewrite Hm. split; [exact He|].
    left; reflexivity.
Qed.

Lemma in_rglob_dir matches e :
  forall root p,
    In p (rglob_dir matches root e)
    <-> exists d sub dirs name,
          e = Dir d sub
          /\ p = (root ++ d :: dirs ++ [name])%list
          /\ entry_at sub dirs name
          /\ matches name = true.
Proof.
  induction e as [f|d sub IH] using TotalityClaims.entry_induction; intros root p.
  - simpl. split; [tauto|]. intros (? & ? & ? & ? & [=] & _).
  - cbn [rglob_dir]. rewrite in_app_iff, in_glob_dir, in_flat_map.
    rewrite List.Forall_forall in IH. split.
    + intros [(e & He & Hm & ->)|(e & He & Hp)].
      * exists d, sub, [], (entry_name e). rewrite <- app_assoc. simpl.
        split; [reflexivity|]. split; [reflexivity|]. split; [eauto|exact Hm].
      * apply (IH e He) in Hp.
        destruct Hp as (d' & sub' & dirs & name & -> & -> & Hat & Hm).
        exists d, sub, (d' :: dirs), name. rewrite <- app_assoc. simpl.
        split; [reflexivity|]. split; [reflexivity|]. split; [eauto|exact Hm].
    + intros (d0 & sub0 & dirs & name & [= <- <-] & -> & Hat & Hm).
      destruct dirs as [|d' dirs]; simpl in Hat.
      * left. destruct Hat as (e & He & <-). exists e.
        rewrite <- app_assoc. auto.
      * right. destruct Hat as (sub' & Hin & Hat). exists (Dir d' sub').
        split; [exact Hin|]. apply (IH _ Hin).
        exists d', sub', dirs, name. rewrite <- app_assoc. simpl. auto.
Qed.

(** X5.  The enhanced file discovery returns exactly the entries, files or
    directories, whose name ends in [.py] and whose full path string
    contains none of the four excluded parts. *)
Theorem enhanced_discovery_exact (h : host) (project_root : string) (p : path) :
  In p (Enhanced.get_python_files h project_root)
  <-> exists top dirs name,
        listing h = Some top
        /\ p = (dirs ++ [name])%list
        /\ entry_at top dirs name
        /\ Py.endswith name ".py" = true
        /\ existsb (fun part => Py.contains part (str_path project_root p))
             excluded_parts = false.
Proof.
  unfold Enhanced.get_python_files. destruct (listing h) as [top|].
  - rewrite filter_In. unfold rglob.
    rewrite in_app_iff, in_glob_dir, in_flat_map, negb_true_iff. split.
    + intros [[(e & He & Hm & ->)|(e & He & Hp)] Hex].
      * exists top, [], (entry_name e). simpl. eauto 10.
      * apply in_rglob_dir in Hp.
        destruct Hp as (d & sub & dirs & name & -> & -> & Hat & Hm).
        exists top, (d :: dirs), name. simpl. eauto 10.
    + intros (top0 & dirs & name & [= <-] & -> & Hat & Hm & Hex).
      split; [|exact Hex].
      destruct dirs as [|d dirs]; simpl in Hat.
      * left. destruct Hat as (e & He & <-). exists e. auto.
      * right. destruct Hat as (sub & Hin & Hat). exists (Dir d sub).
        split; [exact Hin|]. apply in_rglob_dir.
        exists d, sub, dirs, name. auto.
  - simpl. split; [tauto|]. intros (? & ? & ? & [=] & _).
Qed.

Lemma prefix_append sub s t :
  String.prefix sub s = true -> String.prefix sub (s +:+ t) = true.
Proof.
  revert s. induction sub as [|c sub IH]; intros s H;
    [destruct (s +:+ t); reflexivity|].
  destruct s as [|c' s]; [discriminate|].
  change (String c' s +:+ t) with (String c' (s +:+ t)).
  simpl in *. destruct (ascii_dec c c'); [|discriminate]. apply IH, H.
Qed.

Lemma contains_append sub s t :
  Py.contains sub s = true -> Py.contains sub (s +:+ t) = true.
Proof.
  induction s as [|c s IH]; intros H.
  - simpl in H. rewrite orb_false_r in H.
    destruct sub; [|discriminate]. destruct t; reflexivity.
  - change (String c s +:+ t) with (String c (s +:+ t)).
    cbn [Py.contains] in *. apply orb_true_iff in H as [H|H].
    + apply (prefix_append _ _ t) in H.
      change (String c s +:+ t) with (String c (s +:+ t)) in H.
      rewrite H. reflexivity.
    + rewrite (IH H). apply orb_true_r.
Qed.

(** X6.  When the root path itself contains one of the excluded parts, the
    enhanced discovery returns no file at all. *)
Theorem enhanced_discovery_root_excluded (h : host) (project_root : string) :
  existsb (fun part => Py.contains part project_root) excluded_parts = true ->
  Enhanced.get_python_files h project_root = [].
Proof.
  intros Hroot. unfold Enhanced.get_python_files.
  destruct (listing h) as [top|]; [|reflexivity].
  induction (rglob _ top) as [|p l IH]; [reflexivity|].
  cbn [List.filter]. rewrite IH.
  replace (existsb _ _) with true; [reflexivity|].
  symmetry. apply existsb_exists. apply existsb_exists in Hroot as (part & Hin & Hc).
  exists part. split; [exact Hin|]. unfold str_path.
  destruct (String.eqb project_root ".") eqn:Hdot.
  - apply String.eqb_eq in Hdot. subst project_root. exfalso.
    unfold excluded_parts in Hin. simpl in Hin.
    destruct Hin as [<-|[<-|[<-|[<-|[]]]]]; vm_compute in Hc; discriminate.
  - destruct (Py.endswith project_root "/"); apply contains_append, Hc.
Qed.

Lemma enhanced_discovery_root_excluded_witness :
  Enhanced.get_python_files small_project "/home/dev/app"
  = [["app.py"]; ["pkg"; "util.py"]]
  /\ Enhanced.get_python_files small_project "/home/dev/venvs/app" = [].
Proof.
  split; [vm_compute; reflexivity|].
  exact (enhanced_discovery_root_excluded small_project
           "/home/dev/venvs/app" eq_refl).
Defined.

End DiscoveryClaims.

(** ** What the tree passes report *)

Module PassSoundness.
Import Arity ArityFacts AritySpec.

(** A record of [function_defs] was built from a definition of the walk. *)
Lemma collect_defs_origin nodes :
  forall acc name d,
    snd (fold_left collect_node nodes acc) !! name = Some d ->
    snd acc !! name = Some d
    \/ exists def_args body decorator_list returns type_params lineno,
         In (FunctionDef name def_args body decorator_list returns type_params
               lineno) nodes
         /\ d = signature def_args lineno.
Proof.
  induction nodes as [|n nodes IH]; intros acc name d Hd; [left; exact Hd|].
  cbn [fold_left] in Hd. apply IH in Hd as [Hd|Hd].
  - destruct acc as [calls defs].
    destruct n as [| | | |name' def_args body decos returns type_params lineno
                  | |func ? ? ?| |];
      try (left; exact Hd).
    + simpl in Hd. destruct (decide (name' = name)) as [->|Hne].
      * rewrite lookup_insert_eq in Hd. injection Hd as <-.
        right. exists def_args, body, decos, returns, type_params, lineno.
        split; [left; reflexivity|reflexivity].
      * rewrite lookup_insert_ne in Hd by exact Hne. left; exact Hd.
    + destruct func; left; exact Hd.
  - right.
    destruct Hd as (def_args & body & decos & returns & type_params & lineno
                    & Hin & ->).
    exists def_args, body, decos, returns, type_params, lineno.
    split; [right; exact Hin|reflexivity].
Qed.

(** A tuple of [function_calls] was appended for a bare-name call of the
    walk. *)
Lemma collect_calls_origin nodes :
  forall acc c,
    In c (fst (fold_left collect_node nodes acc)) ->
    In c (fst acc)
    \/ exists func_name ctx ln0 args keywords lineno,
         In (Call (Name func_name ctx ln0) args keywords lineno) nodes
         /\ c = CallSite func_name (len args) (len keywords) lineno.
Proof.
  induction nodes as [|n nodes IH]; intros acc c Hc; [left; exact Hc|].
  cbn [fold_left] in Hc. apply IH in Hc as [Hc|Hc].
  - destruct acc as [calls defs].
    destruct n as [| | | | | |func args keywords lineno| |];
      try (left; exact Hc).
    destruct func as [| | | | | | |func_name ctx ln0|]; try (left; exact Hc).
    simpl in Hc. apply in_app_iff in Hc as [Hc|[<-|[]]]; [left; exact Hc|].
    right. exists func_name, ctx, ln0, args, keywords, lineno.
    split; [left; reflexivity|reflexivity].
  - right.
    destruct Hc as (func_name & ctx & ln0 & args & keywords & lineno & Hin & ->).
    exists func_name, ctx, ln0, args, keywords, lineno.
    split; [right; exact Hin|reflexivity].
Qed.

(** X7.  Every error the arity pass adds for a parsed file concerns a call
    node of the file whose callee is a bare name, and a function
    definition of the same file that carries this name, and states a real
    mismatch between the arguments of the call (positional plus keyword)
    and the record of the definition: fewer than required, or more than
    the total. *)
Theorem arity_errors_sound (verb file : string) (a : analyzer) (tree : node)
  (e : string) :
  In e (errors (check_tree verb file a tree)) ->
  In e (errors a)
  \/ exists func_name ctx ln0 call_args keywords call_lineno
            def_args body decorator_list returns type_params lineno,
       In (Call (Name func_name ctx ln0) call_args keywords call_lineno)
          (walk tree)
       /\ In (FunctionDef func_name def_args body decorator_list returns
                type_params lineno) (walk tree)
       /\ let c := CallSite func_name (len call_args) (len keywords)
                     call_lineno in
          let d := signature def_args lineno in
          let provided := len call_args + len keywords in
          (e = too_few file c d /\ provided < required_args d)
          \/ (e = too_many verb file c d /\ provided > total_args d).
Proof.
  unfold check_tree. destruct (collect (walk tree)) as [calls defs] eqn:Hcollect.
  rewrite check_calls_errors, in_app_iff, in_flat_map.
  intros [He|(c & Hc & He)]; [left; exact He|right].
  unfold emitted, check_call in He.
  destruct (defs !! call_name c) as [d|] eqn:Hd; [|destruct He].
  cbv zeta in He.
  assert (Horigin : snd (fold_left collect_node (walk tree) ([], ∅))
                    !! call_name c = Some d).
  { unfold collect in Hcollect. rewrite Hcollect. exact Hd. }
  apply collect_defs_origin in Horigin as [Hempty|Horigin];
    [simpl in Hempty; rewrite lookup_empty in Hempty; discriminate|].
  destruct Horigin as (def_args & body & decos & returns & type_params & lineno
                       & Hin & Hsig).
  assert (Hsite : In c (fst (fold_left collect_node (walk tree) ([], ∅)))).
  { unfold collect in Hcollect. rewrite Hcollect. exact Hc. }
  apply collect_calls_origin in Hsite as [[]|Hsite].
  destruct Hsite as (func_name & ctx & ln0 & call_args & keywords & call_lineno
                     & Hcall & ->).
  exists func_name, ctx, ln0, call_args, keywords, call_lineno,
    def_args, body, decos, returns, type_params, lineno.
  split; [exact Hcall|]. split; [exact Hin|]. cbv zeta. rewrite <- Hsig.
  cbn [Arity.call_args Arity.call_kwargs] in He.
  destruct (Z.ltb_spec (len call_args + len keywords) (required_args d)).
  - simpl in He. destruct He as [<-|[]]. left. split; [reflexivity|assumption].
  - destruct (Z.gtb_spec (len call_args + len keywords) (total_args d)).
    + simpl in He. destruct He as [<-|[]]. right. split; [reflexivity|lia].
    + destruct He.
Qed.

Lemma arity_errors_sound_witness :
  let e := "PARAMETER ERROR in /p/m.py:3: Function 'f' requires 2 args but 1 provided" in
  In e (errors (blank "/p"))
  \/ exists func_name ctx ln0 call_args keywords call_lineno
            def_args body decorator_list returns type_params lineno,
       In (Call (Name func_name ctx ln0) call_args keywords call_lineno)
          (walk arity_example)
       /\ In (FunctionDef func_name def_args body decorator_list returns
                type_params lineno) (walk arity_example)
       /\ let c := CallSite func_name (len call_args) (len keywords)
                     call_lineno in
          let d := signature def_args lineno in
          let provided := len call_args + len keywords in
          (e = too_few "/p/m.py" c d /\ provided < required_args d)
          \/ (e = too_many "takes" "/p/m.py" c d /\ provided > total_args d).
Proof.
  apply (arity_errors_sound "takes" "/p/m.py" (blank "/p") arity_example).
  vm_compute. left. reflexivity.
Defined.

(** One visit keeps the known names and adds at most the warning of a
    value-reading use that is unknown and not exempt. *)
Lemma visit_step isupper file defined_names a n :
  let st := Undefined.visit isupper file (defined_names, a) n in
  defined_names ⊆ fst st
  /\ project_root (snd st) = project_root a
  /\ errors (snd st) = errors a
  /\ (warnings (snd st) = warnings a
      \/ exists id lineno,
           n = Name id Load lineno
           /\ (id ∉ defined_names)
           /\ (Py.startswith id "_" || isupper id) = false
           /\ warnings (snd st)
              = (warnings a ++ [Undefined.undefined_warning file lineno id])%list).
Proof.
  assert (Hsub : forall xs (s : gset string), s ⊆ Undefined.add_all xs s).
  { intros xs s x Hx. apply UndefinedClaims.elem_of_add_all. left; exact Hx. }
  destruct n as [| | | | | | |id ctx lineno|]; simpl;
    try (split; [first [apply Hsub | set_solver]|auto]).
  destruct ctx; simpl; try (split; [set_solver|auto]).
  destruct (bool_decide (id ∈ defined_names)) eqn:Hin; simpl;
    [split; [set_solver|auto]|].
  apply bool_decide_eq_false in Hin.
  destruct (Py.startswith id "_" || isupper id) eqn:Hexempt; simpl;
    [split; [set_solver|auto]|].
  split; [set_solver|]. split; [reflexivity|]. split; [reflexivity|].
  right. exists id, lineno. auto.
Qed.

Lemma visits_warnings_sound isupper file nodes :
  forall defined_names a w,
    In w (warnings (snd (fold_left (Undefined.visit isupper file) nodes (defined_names, a)))) ->
    In w (warnings a)
    \/ exists id lineno,
         w = Undefined.undefined_warning file lineno id
         /\ In (Name id Load lineno) nodes
         /\ (id ∉ defined_names)
         /\ (Py.startswith id "_" || isupper id) = false.
Proof.
  induction nodes as [|n nodes IH]; intros defined_names a w Hw; [left; exact Hw|].
  cbn [fold_left] in Hw.
  pose proof (visit_step isupper file defined_names a n)
    as (Hsub & _ & _ & Hstep).
  destruct (Undefined.visit isupper file (defined_names, a) n) as [defined' a'].
  simpl in Hsub, Hstep. apply IH in Hw as [Hw|(id & lineno & -> & Hin & Hnot & Hex)].
  - destruct Hstep as [Hsame|(id & lineno & -> & Hnot & Hex & Hadd)];
      [left; rewrite <- Hsame; exact Hw|].
    rewrite Hadd in Hw.
    apply in_app_iff in Hw as [Hw|[<-|[]]]; [left; exact Hw|].
    right. exists id, lineno. split; [reflexivity|]. split; [left; reflexivity|].
    auto.
  - right. exists id, lineno. split; [reflexivity|]. split; [right; exact Hin|].
    split; [|exact Hex]. intros Hid. apply Hnot, Hsub, Hid.
Qed.

(** X8.  Every warning the undefined-name pass adds for a parsed file is about
    a value-reading use, in that file, of a name that is not in the
    initial known set, has no leading underscore and is not all upper
    case. *)
Theorem undefined_warnings_sound (isupper : string -> bool)
  (seed : gset string) (file : string)
  (a : analyzer) (tree : node) (w : string) :
  In w (warnings (Undefined.check_tree isupper seed file a tree)) ->
  In w (warnings a)
  \/ exists id lineno,
       w = Undefined.undefined_warning file lineno id
       /\ In (Name id Load lineno) (walk tree)
       /\ (id ∉ seed)
       /\ Py.startswith id "_" = false
       /\ isupper id = false.
Proof.
  unfold Undefined.check_tree. intros Hw.
  apply visits_warnings_sound in Hw as [Hw|(id & lineno & -> & Hin & Hnot & Hex)];
    [left; exact Hw|].
  right. exists id, lineno. apply orb_false_elim in Hex as [H1 H2]. auto 10.
Qed.

Lemma undefined_warnings_sound_witness :
  let w := "UNDEFINED VARIABLE in /p/m.py:1: 'count' may be undefined" in
  In w (warnings (blank "/p"))
  \/ exists id lineno,
       w = Undefined.undefined_warning "/p/m.py" lineno id
       /\ In (Name id Load lineno) (walk UndefinedSpec.defined_later_and_deeper)
       /\ (id ∉ Legacy.seed)
       /\ Py.startswith id "_" = false
       /\ Py.isupper id = false.
Proof.
  apply (undefined_warnings_sound Py.isupper Legacy.seed "/p/m.py" (blank "/p")
           UndefinedSpec.defined_later_and_deeper).
  vm_compute. left. reflexivity.
Defined.

(** The names the legacy analyzer never reports: its builtin list. *)
Lemma legacy_seed_builtin (id : string) :
  id ∈ Legacy.seed <-> In id Legacy.builtin_names.
Proof.
  unfold Legacy.seed. rewrite UndefinedClaims.elem_of_add_all.
  split; [intros [H|H]; [set_solver|exact H]|auto].
Qed.

(** The errors one item of a class body gives. *)
Lemma check_item_appends file a item :
  Methods.check_item file a item
  = match item with
    | FunctionDef name item_args _ decorator_list _ _ lineno =>
        if MethodsSpec.flagged name item_args decorator_list
        then add_error a (Methods.method_error file lineno name)
        else a
    | _ => a
    end.
Proof.
  destruct item as [| | | |name item_args ? decos ? ? lineno| | | |];
    try reflexivity.
  unfold Methods.check_item, MethodsSpec.flagged.
  destruct (args item_args) as [|a0 rest]; [reflexivity|]. cbv zeta.
  destruct (String.eqb (arg a0) "self"); simpl; [reflexivity|].
  destruct (Py.startswith name "_"); simpl; [reflexivity|].
  destruct (Methods.has_decorator decos); reflexivity.
Qed.

Lemma check_items_errors file body :
  forall a e,
    In e (errors (fold_left (Methods.check_item file) body a))
    <-> In e (errors a)
        \/ exists name item_args fbody decorator_list returns type_params lineno,
             In (FunctionDef name item_args fbody decorator_list returns
                   type_params lineno) body
             /\ MethodsSpec.flagged name item_args decorator_list = true
             /\ e = Methods.method_error file lineno name.
Proof.
  induction body as [|item body IH]; intros a e.
  - simpl. split; [auto|].
    intros [H|(? & ? & ? & ? & ? & ? & ? & [] & _)]. exact H.
  - cbn [fold_left]. rewrite IH, check_item_appends. split.
    + intros [He|(name & item_args & fbody & decos & returns & type_params
                  & lineno & Hin & Hf & ->)].
      * destruct item as [| | | |name item_args fbody decos returns type_params
                             lineno| | | |];
          try (left; exact He).
        destruct (MethodsSpec.flagged name item_args decos) eqn:Hf;
          [|left; exact He].
        simpl in He. apply in_app_iff in He as [He|[<-|[]]]; [left; exact He|].
        right. exists name, item_args, fbody, decos, returns, type_params, lineno.
        split; [left; reflexivity|auto].
      * right. exists name, item_args, fbody, decos, returns, type_params, lineno.
        split; [right; exact Hin|auto].
    + intros [He|(name & item_args & fbody & decos & returns & type_params
                  & lineno & [->|Hin] & Hf & ->)].
      * left. destruct item as [| | | |name item_args ? decos ? ? lineno| | | |];
          try exact He.
        destruct (MethodsSpec.flagged name item_args decos); [|exact He].
        simpl. apply in_app_iff. left; exact He.
      * left. rewrite Hf. simpl. apply in_app_iff. right; left; reflexivity.
      * right. exists name, item_args, fbody, decos, returns, type_params, lineno.
        auto.
Qed.

Lemma check_items_warnings file body :
  forall a, warnings (fold_left (Methods.check_item file) body a) = warnings a.
Proof.
  induction body as [|item body IH]; intros a; [reflexivity|].
  cbn [fold_left]. rewrite IH, check_item_appends.
  destruct item as [| | | |name item_args ? decos ? ? lineno| | | |];
    try reflexivity.
  destruct (MethodsSpec.flagged name item_args decos); reflexivity.
Qed.

Lemma check_nodes_errors file nodes :
  forall a e,
    In e (errors (fold_left (Methods.check_node file) nodes a))
    <-> In e (errors a)
        \/ exists cname bases keywords body cdecorators ctype_params clineno
                  name item_args fbody decorator_list returns type_params lineno,
             In (ClassDef cname bases keywords body cdecorators ctype_params
                   clineno) nodes
             /\ In (FunctionDef name item_args fbody decorator_list returns
                      type_params lineno) body
             /\ MethodsSpec.flagged name item_args decorator_list = true
             /\ e = Methods.method_error file lineno name.
Proof.
  induction nodes as [|n nodes IH]; intros a e.
  - simpl. split; [auto|].
    intros [H|(? & ? & ? & ? & ? & ? & ? & ? & ? & ? & ? & ? & ? & ? & [] & _)].
    exact H.
  - cbn [fold_left]. rewrite IH. split.
    + intros [He|(cn & bs & kws & body & cd & ctp & cl & name & item_args & fbody
                  & decos & returns & type_params & lineno & Hin & Hrest)].
      * destruct n as [| | | | |cn bs kws body cd ctp cl| | |];
          try (left; exact He).
        simpl in He. apply check_items_errors in He
          as [He|(name & item_args & fbody & decos & returns & type_params
                  & lineno & Hrest)];
          [left; exact He|].
        right. exists cn, bs, kws, body, cd, ctp, cl, name, item_args, fbody,
          decos, returns, type_params, lineno.
        split; [left; reflexivity|exact Hrest].
      * right. exists cn, bs, kws, body, cd, ctp, cl, name, item_args, fbody,
          decos, returns, type_params, lineno.
        split; [right; exact Hin|exact Hrest].
    + intros [He|(cn & bs & kws & body & cd & ctp & cl & name & item_args & fbody
                  & decos & returns & type_params & lineno & [->|Hin] & Hrest)].
      * left. destruct n as [| | | | |cn bs kws body cd ctp cl| | |];
          try exact He.
        simpl. apply check_items_errors. left; exact He.
      * left. simpl. apply check_items_errors. right.
        exists name, item_args, fbody, decos, returns, type_params, lineno.
        exact Hrest.
      * right. exists cn, bs, kws, body, cd, ctp, cl, name, item_args, fbody,
          decos, returns, type_params, lineno.
        split; [exact Hin|exact Hrest].
Qed.

(** X9.  The method-signature pass reports, for a parsed file, exactly the
    functions that stand directly in the body of some class of the file,
    at any depth, and that [flagged] selects; functions outside a class
    body are never reported, and the pass adds no warning. *)
Theorem method_errors_exact (file : string) (a : analyzer) (tree : node)
  (e : string) :
  (In e (errors (Methods.check_tree file a tree))
   <-> In e (errors a)
       \/ exists cname bases keywords body cdecorators ctype_params clineno
                 name item_args fbody decorator_list returns type_params lineno,
            In (ClassDef cname bases keywords body cdecorators ctype_params
                  clineno) (walk tree)
            /\ In (FunctionDef name item_args fbody decorator_list returns
                     type_params lineno) body
            /\ MethodsSpec.flagged name item_args decorator_list = true
            /\ e = Methods.method_error file lineno name)
  /\ warnings (Methods.check_tree file a tree) = warnings a.
Proof.
  split; [apply check_nodes_errors|].
  unfold Methods.check_tree. generalize (walk tree) as nodes. intros nodes.
  revert a. induction nodes as [|n nodes IH]; intros a; [reflexivity|].
  cbn [fold_left]. rewrite IH.
  destruct n as [| | | | |cn bs kws body cd ctp cl| | |]; try reflexivity.
  apply check_items_warnings.
Qed.

End PassSoundness.

(** ** How the passes compose *)

Module CompositionClaims.
Import CompositionSpec.

Lemma analyzer_eq a b :
  project_root a = project_root b -> errors a = errors b ->
  warnings a = warnings b -> a = b.
Proof. destruct a, b; simpl; intros -> -> ->; reflexivity. Qed.

Lemma extend_blank b : extend (blank (project_root b)) b = b.
Proof. destruct b; reflexivity. Qed.

Lemma extend_assoc a b c : extend (extend a b) c = extend a (extend b c).
Proof. unfold extend; simpl. rewrite !app_assoc. reflexivity. Qed.

Lemma extend_add_error a b msg :
  add_error (extend a b) msg = extend a (add_error b msg).
Proof. unfold extend, add_error; simpl. rewrite app_assoc. reflexivity. Qed.

Lemma extend_add_warning a b msg :
  add_warning (extend a b) msg = extend a (add_warning b msg).
Proof. unfold extend, add_warning; simpl. rewrite app_assoc. reflexivity. Qed.

Lemma extend_nothing a : extend a (blank (project_root a)) = a.
Proof. destruct a; unfold extend; simpl. rewrite !app_nil_r. reflexivity. Qed.

Lemma add_error_appends a msg :
  add_error a msg = extend a (add_error (blank (project_root a)) msg).
Proof. unfold extend, add_error; simpl. rewrite app_nil_r. reflexivity. Qed.

Lemma add_warning_appends a msg :
  add_warning a msg = extend a (add_warning (blank (project_root a)) msg).
Proof. unfold extend, add_warning; simpl. rewrite app_nil_r. reflexivity. Qed.

Lemma fold_appends {X : Type} (f : analyzer -> X -> analyzer) :
  appends f -> appends (fun a xs => fold_left f xs a).
Proof.
  intros Hf a xs. revert a. induction xs as [|x xs IH]; intros a.
  - simpl. symmetry. apply extend_nothing.
  - cbn [fold_left]. rewrite IH, (Hf a x). cbn [extend project_root].
    rewrite (IH (f (blank (project_root a)) x)).
    rewrite extend_assoc. f_equal. f_equal. f_equal.
    rewrite (Hf (blank (project_root a)) x). reflexivity.
Qed.

Lemma appends_file_by_file (f : analyzer -> path -> analyzer) :
  appends f -> file_by_file (fun a files => fold_left f files a).
Proof.
  intros Hf a files alone. unfold alone. clear alone. cbn [fold_left].
  revert a. induction files as [|x files IH]; intros a.
  - simpl. rewrite !app_nil_r. auto.
  - cbn [fold_left flat_map]. destruct (IH (f a x)) as (Hroot & Herr & Hwarn).
    rewrite Hroot, Herr, Hwarn. rewrite (Hf a x). cbn [extend project_root errors warnings].
    rewrite <- !app_assoc. auto.
Qed.

Lemma arity_appends verb file :
  appends (fun a tree => Arity.check_tree verb file a tree).
Proof.
  intros a tree. apply analyzer_eq.
  - rewrite SessionClaims.arity_root. reflexivity.
  - unfold Arity.check_tree. destruct (Arity.collect (walk tree)) as [calls defs].
    cbn [extend errors]. rewrite !ArityFacts.check_calls_errors. reflexivity.
  - unfold Arity.check_tree. destruct (Arity.collect (walk tree)) as [calls defs].
    cbn [extend warnings]. rewrite !ArityFacts.check_calls_warnings.
    simpl. rewrite app_nil_r. reflexivity.
Qed.

Lemma visit_appends isupper file defined_names a n :
  Undefined.visit isupper file (defined_names, a) n
  = (fst (Undefined.visit isupper file (defined_names, blank (project_root a)) n),
     extend a (snd (Undefined.visit isupper file (defined_names, blank (project_root a)) n))).
Proof.
  destruct n as [| | | | | | |id ctx lineno|]; simpl;
    try (f_equal; symmetry; apply extend_nothing).
  destruct ctx; simpl; try (f_equal; symmetry; apply extend_nothing).
  destruct (bool_decide _); simpl; [f_equal; symmetry; apply extend_nothing|].
  destruct (negb _); simpl; [|f_equal; symmetry; apply extend_nothing].
  f_equal. apply add_warning_appends.
Qed.

Lemma visits_appends isupper file nodes :
  forall defined_names a,
    fold_left (Undefined.visit isupper file) nodes (defined_names, a)
    = (fst (fold_left (Undefined.visit isupper file) nodes
              (defined_names, blank (project_root a))),
       extend a (snd (fold_left (Undefined.visit isupper file) nodes
                        (defined_names, blank (project_root a))))).
Proof.
  induction nodes as [|n nodes IH]; intros defined_names a.
  - simpl. f_equal. symmetry. apply extend_nothing.
  - cbn [fold_left]. rewrite (visit_appends isupper file defined_names a n).
    destruct (Undefined.visit isupper file (defined_names, blank (project_root a)) n)
      as [defined' b] eqn:Hn.
    cbn [fst snd].
    assert (Hroot : project_root b = project_root a).
    { pose proof (PassSoundness.visit_step isupper file defined_names
                    (blank (project_root a)) n) as (_ & Hr & _).
      rewrite Hn in Hr. exact Hr. }
    rewrite (IH defined' (extend a b)), (IH defined' b).
    cbn [extend project_root fst snd]. rewrite Hroot.
    f_equal. rewrite <- extend_assoc. reflexivity.
Qed.

Lemma undefined_appends isupper seed file :
  appends (fun a tree => Undefined.check_tree isupper seed file a tree).
Proof.
  intros a tree. unfold Undefined.check_tree.
  rewrite (visits_appends isupper file (walk tree) seed a). reflexivity.
Qed.

Lemma item_step_appends file : appends (Methods.check_item file).
Proof.
  intros a item. rewrite !PassSoundness.check_item_appends.
  destruct item as [| | | |name item_args ? decos ? ? lineno| | | |];
    try (symmetry; apply extend_nothing).
  destruct (MethodsSpec.flagged name item_args decos);
    [apply add_error_appends|symmetry; apply extend_nothing].
Qed.

Lemma methods_appends file :
  appends (fun a tree => Methods.check_tree file a tree).
Proof.
  intros a tree. unfold Methods.check_tree.
  apply (fold_appends (Methods.check_node file)). clear a tree.
  intros a n. destruct n as [| | | | |cn bs kws body cd ctp cl| | |];
    try (symmetry; apply extend_nothing).
  apply (fold_appends (Methods.check_item file)), item_step_appends.
Qed.

Ltac per_file_appends :=
  intros a x;
  match goal with
  | |- ?f _ a x = _ => unfold f
  end;
  cbn [project_root blank];
  destruct (parse_file _ _) as [tree|[lineno msg|str_e|str_e]];
  first [ symmetry; apply extend_nothing
        | apply add_error_appends
        | apply add_warning_appends
        | apply (arity_appends _ _ a tree)
        | apply (undefined_appends _ _ _ a tree)
        | apply (methods_appends _ a tree) ].

Lemma legacy_syntax_appends h : appends (Legacy.check_syntax_file h).
Proof. per_file_appends. Qed.
Lemma legacy_parameters_appends h : appends (Legacy.check_parameters_file h).
Proof. per_file_appends. Qed.
Lemma legacy_undefined_appends h : appends (Legacy.check_undefined_file h).
Proof. per_file_appends. Qed.
Lemma legacy_methods_appends h : appends (Legacy.check_methods_file h).
Proof. per_file_appends. Qed.
Lemma enhanced_syntax_appends h : appends (Enhanced.check_syntax_file h).
Proof. per_file_appends. Qed.
Lemma enhanced_parameters_appends h : appends (Enhanced.check_parameters_file h).
Proof. per_file_appends. Qed.
Lemma enhanced_undefined_appends h : appends (Enhanced.check_undefined_file h).
Proof. per_file_appends. Qed.
Lemma enhanced_methods_appends h : appends (Enhanced.check_methods_file h).
Proof. per_file_appends. Qed.

(** X10.  In the syntax, arity, undefined-name and method-signature passes of
    both analyzers a file contributes the same findings whatever the
    other files are and whatever was found before: the buckets after the
    pass are the buckets before it followed, in file order, by what each
    file gives when the pass runs on it alone. *)
Theorem passes_work_file_by_file (h : host) :
  file_by_file (Legacy._check_syntax_errors h)
  /\ file_by_file (Legacy._check_parameter_mismatches h)
  /\ file_by_file (Legacy._check_undefined_variables h)
  /\ file_by_file (Legacy._check_class_method_signatures h)
  /\ file_by_file (Enhanced._check_syntax_errors h)
  /\ file_by_file (Enhanced._check_parameter_mismatches h)
  /\ file_by_file (Enhanced._check_undefined_variables h)
  /\ file_by_file (Enhanced._check_class_method_signatures h).
Proof.
  split; [exact (appends_file_by_file _ (legacy_syntax_appends h))|].
  split; [exact (appends_file_by_file _ (legacy_parameters_appends h))|].
  split; [exact (appends_file_by_file _ (legacy_undefined_appends h))|].
  split; [exact (appends_file_by_file _ (legacy_methods_appends h))|].
  split; [exact (appends_file_by_file _ (enhanced_syntax_appends h))|].
  split; [exact (appends_file_by_file _ (enhanced_parameters_appends h))|].
  split; [exact (appends_file_by_file _ (enhanced_undefined_appends h))|].
  exact (appends_file_by_file _ (enhanced_methods_appends h)).
Qed.

Lemma appends_st_root {X : Type} (body : pstate -> X -> pstate * option string) :
  appends_st body ->
  forall r sys_path x,
    project_root (fst (fst (body (blank r, sys_path) x))) = r.
Proof.
  intros Hb r sys_path x. specialize (Hb (blank r) sys_path x).
  cbn [blank project_root] in Hb. fold (blank r) in Hb.
  rewrite Hb at 1. reflexivity.
Qed.

Lemma lift_lift a b r : lift a (lift b r) = lift (extend a b) r.
Proof. unfold lift; simpl. rewrite extend_assoc. reflexivity. Qed.

Lemma for_each_appends {X : Type} (body : pstate -> X -> pstate * option string) :
  appends_st body -> appends_st (for_each body).
Proof.
  intros Hb a sys_path xs. revert a sys_path.
  induction xs as [|x xs IH]; intros a sys_path.
  - unfold lift; simpl. rewrite extend_nothing. reflexivity.
  - cbn [for_each]. rewrite (Hb a sys_path x).
    pose proof (appends_st_root body Hb (project_root a) sys_path x) as Hroot.
    destruct (body (blank (project_root a), sys_path) x) as [[b sys_path1] [e|]].
    + reflexivity.
    + cbn [lift fst snd] in *. rewrite (IH (extend a b)), (IH b).
      cbn [extend project_root]. rewrite Hroot. symmetry. apply lift_lift.
Qed.

Lemma lift_nothing a sys_path e :
  ((a, sys_path), e) = lift a ((blank (project_root a), sys_path), e).
Proof. unfold lift; simpl. rewrite extend_nothing. reflexivity. Qed.

Lemma enhanced_module_appends h file :
  appends_st (Enhanced._check_module_exists h file).
Proof.
  intros a sys_path module_name. unfold Enhanced._check_module_exists.
  cbn [project_root blank].
  destruct (import_module h _ module_name); try apply lift_nothing.
  - destruct (_ || _)%bool; unfold lift; cbn [fst snd]; repeat f_equal;
      [apply add_warning_appends|apply add_error_appends].
  - unfold lift; cbn [fst snd]; repeat f_equal. apply add_warning_appends.
Qed.

Lemma enhanced_node_appends h file :
  appends_st (Enhanced.check_import_node h file).
Proof.
  intros a sys_path n.
  destruct n as [|names|module names| | | | | |]; try apply lift_nothing.
  - apply (for_each_appends _ (enhanced_module_appends h file)).
  - destruct module as [module|]; [|apply lift_nothing]. simpl.
    destruct (String.eqb module ""); [apply lift_nothing|].
    apply enhanced_module_appends.
Qed.

Lemma enhanced_import_file_appends h : appends_st (Enhanced.check_import_file h).
Proof.
  intros a sys_path py_file. unfold Enhanced.check_import_file.
  cbn [fst snd project_root blank].
  destruct (parse_file h _) as [tree|e].
  - apply (for_each_appends _ (enhanced_node_appends h _)).
  - unfold lift; cbn [fst snd]; repeat f_equal. apply add_warning_appends.
Qed.

Lemma enhanced_imports_append h :
  appends_st (Enhanced._check_import_errors h).
Proof. exact (for_each_appends _ (enhanced_import_file_appends h)). Qed.

Lemma legacy_import_file_appends h : appends_st (Legacy.check_import_file h).
Proof.
  intros a sys_path file_path. unfold Legacy.check_import_file.
  cbn [project_root blank].
  destruct (_ || _)%bool; [apply lift_nothing|].
  destruct (import_module h sys_path _); try apply lift_nothing.
  - destruct (Py.contains "No module named" _);
      [destruct (existsb _ _)|]; unfold lift; cbn [fst snd]; repeat f_equal;
      first [apply add_warning_appends|apply add_error_appends].
  - unfold lift; cbn [fst snd]; repeat f_equal. apply add_error_appends.
Qed.

Lemma legacy_imports_append h : appends_st (Legacy._check_import_errors h).
Proof.
  intros a sys_path files. unfold Legacy._check_import_errors.
  cbn [project_root blank].
  rewrite (for_each_appends _ (legacy_import_file_appends h) a).
  pose proof (PathClaims.legacy_loop_root h
                (blank (project_root a), project_root a :: sys_path) files)
    as Hroot.
  destruct (for_each (Legacy.check_import_file h) _ files)
    as [[b sys_path1] [e|]]; [reflexivity|].
  cbn [fst snd project_root blank] in Hroot.
  cbn [lift fst snd extend project_root]. rewrite Hroot.
  destruct (Py.mem _ _); reflexivity.
Qed.

Lemma enhanced_all_unfold h a sys_path :
  Enhanced.analyze_all h (a, sys_path)
  = let files := Enhanced.get_python_files h (project_root a) in
    let a1 := Enhanced._check_syntax_errors h (reset a) files in
    match Enhanced._check_import_errors h (a1, sys_path) files with
    | (s', Some e) => (Raises e, s')
    | ((a2, sys_path2), None) =>
        let a3 := Enhanced._check_parameter_mismatches h a2 files in
        let a4 := Enhanced._check_undefined_variables h a3 files in
        let a5 := Enhanced._check_class_method_signatures h a4 files in
        (Returns (result_of a5), (a5, sys_path2))
    end.
Proof. reflexivity. Qed.

Lemma enhanced_specific_unfold h a sys_path :
  let files := Enhanced.get_python_files h (project_root a) in
  let run t := fst (Enhanced.analyze_specific h (a, sys_path) t) in
  run "syntax"
    = Returns (result_of (Enhanced._check_syntax_errors h (reset a) files))
  /\ run "parameters"
      = Returns (result_of (Enhanced._check_parameter_mismatches h (reset a) files))
  /\ run "variables"
      = Returns (result_of (Enhanced._check_undefined_variables h (reset a) files))
  /\ run "methods"
      = Returns (result_of
                  (Enhanced._check_class_method_signatures h (reset a) files))
  /\ run "imports"
      = match Enhanced._check_import_errors h (reset a, sys_path) files with
        | (_, Some e) => Raises e
        | ((a2, _), None) => Returns (result_of a2)
        end.
Proof.
  repeat split.
  unfold Enhanced.analyze_specific. cbn [String.eqb Ascii.eqb Bool.eqb].
  destruct (Enhanced._check_import_errors h _ _) as [[a2 sp2] [e|]]; reflexivity.
Qed.

(** X11.  The enhanced [analyze_all] is the five single-pass runs put end to
    end: when the import run lets an exception escape, so does the
    comprehensive run; otherwise its errors (and its warnings) are those of
    the syntax, imports, parameters, variables and methods runs, in this
    order. *)
Theorem enhanced_comprehensive_composes (h : host) (a : analyzer)
  (sys_path : list string) :
  let run t := fst (Enhanced.analyze_specific h (a, sys_path) t) in
  match run "imports" with
  | Raises e => fst (Enhanced.analyze_all h (a, sys_path)) = Raises e
  | Returns ri =>
      exists rs rp rv rm,
        run "syntax" = Returns rs /\ run "parameters" = Returns rp
        /\ run "variables" = Returns rv /\ run "methods" = Returns rm
        /\ fst (Enhanced.analyze_all h (a, sys_path))
           = Returns (Result
               (res_errors rs ++ res_errors ri ++ res_errors rp
                ++ res_errors rv ++ res_errors rm)
               (res_warnings rs ++ res_warnings ri ++ res_warnings rp
                ++ res_warnings rv ++ res_warnings rm))
  end.
Proof.
  cbv zeta.
  pose proof (enhanced_specific_unfold h a sys_path) as Hruns. cbv zeta in Hruns.
  destruct Hruns as (Hs & Hp & Hv & Hm & Hi).
  rewrite Hi, enhanced_all_unfold. cbv zeta.
  set (files := Enhanced.get_python_files h (project_root a)) in *.
  change (reset a) with (blank (project_root a)) in *.
  set (r := project_root a) in *.
  pose proof (appends_file_by_file _ (enhanced_syntax_appends h)
              : file_by_file (Enhanced._check_syntax_errors h)) as Fs.
  pose proof (appends_file_by_file _ (enhanced_parameters_appends h)
              : file_by_file (Enhanced._check_parameter_mismatches h)) as Fp.
  pose proof (appends_file_by_file _ (enhanced_undefined_appends h)
              : file_by_file (Enhanced._check_undefined_variables h)) as Fv.
  pose proof (appends_file_by_file _ (enhanced_methods_appends h)
              : file_by_file (Enhanced._check_class_method_signatures h)) as Fm.
  destruct (Fs (blank r) files) as (Rs & _ & _).
  set (a1 := Enhanced._check_syntax_errors h (blank r) files) in *.
  rewrite (enhanced_imports_append h a1 sys_path files). rewrite Rs.
  cbn [blank project_root]. fold (blank r).
  destruct (Enhanced._check_import_errors h (blank r, sys_path) files)
    as [[b sys_path2] [e|]] eqn:Himports; cbn [lift fst snd].
  - reflexivity.
  - do 4 eexists. split; [exact Hs|]. split; [exact Hp|]. split; [exact Hv|].
    split; [exact Hm|]. cbn [fst]. f_equal. unfold result_of.
    assert (Rb : project_root b = r).
    { pose proof (SessionClaims.enhanced_imports_root h (blank r, sys_path) files)
        as H. rewrite Himports in H. exact H. }
    destruct (Fp (extend a1 b) files) as (Rp & Ep & Wp).
    destruct (Fv (Enhanced._check_parameter_mismatches h (extend a1 b) files) files)
      as (Rv & Ev & Wv).
    destruct (Fm (Enhanced._check_undefined_variables h
                    (Enhanced._check_parameter_mismatches h (extend a1 b) files)
                    files) files) as (Rm & Em & Wm).
    destruct (Fp (blank r) files) as (_ & Ep0 & Wp0).
    destruct (Fv (blank r) files) as (_ & Ev0 & Wv0).
    destruct (Fm (blank r) files) as (_ & Em0 & Wm0).
    rewrite Em, Wm, Rv, Ev, Wv, Rp, Ep, Wp, Em0, Wm0, Ev0, Wv0, Ep0, Wp0.
    cbn [extend project_root errors warnings blank]. rewrite Rs.
    cbn [app]. rewrite <- !app_assoc. reflexivity.
Qed.

Lemma legacy_all_unfold h a sys_path :
  Legacy.analyze_all h (a, sys_path)
  = let files := Legacy._get_python_files h in
    let a1 := Legacy._check_syntax_errors h (reset a) files in
    match Legacy._check_import_errors h (a1, sys_path) files with
    | (s', Some e) => (Raises e, s')
    | ((a2, sys_path2), None) =>
        let a3 := Legacy._check_parameter_mismatches h a2 files in
        let a4 := Legacy._check_undefined_variables h a3 files in
        let a5 := Legacy._check_class_method_signatures h a4 files in
        (Returns (result_of a5), (a5, sys_path2))
    end.
Proof. reflexivity. Qed.

Lemma legacy_specific_unfold h a sys_path :
  let files := Legacy._get_python_files h in
  let run t := fst (Legacy.analyze_specific h (a, sys_path) t) in
  run "syntax"
    = Returns (result_of (Legacy._check_syntax_errors h (reset a) files))
  /\ run "parameters"
      = Returns (result_of (Legacy._check_parameter_mismatches h (reset a) files))
  /\ run "methods"
      = Returns (result_of
                  (Legacy._check_class_method_signatures h (reset a) files))
  /\ run "comprehensive" = fst (Legacy.analyze_all h (a, sys_path))
  /\ run "imports"
      = match Legacy._check_import_errors h (reset a, sys_path) files with
        | (_, Some e) => Raises e
        | ((a2, _), None) => Returns (result_of a2)
        end.
Proof.
  repeat split.
  unfold Legacy.analyze_specific. cbn [String.eqb Ascii.eqb Bool.eqb].
  destruct (Legacy._check_import_errors h _ _) as [[a2 sp2] [e|]]; reflexivity.
Qed.

(** X12.  The legacy [analyze_all], which is also what [analyze_specific] runs
    for "comprehensive", is the single-pass runs put end to end, with the
    undefined-name pass, which has no analysis type of its own in this
    file, between the parameters and the methods runs: when the import run
    lets an exception escape, so does the comprehensive run; otherwise its
    buckets are those of the runs in this order. *)
Theorem legacy_comprehensive_composes (h : host) (a : analyzer)
  (sys_path : list string) :
  let run t := fst (Legacy.analyze_specific h (a, sys_path) t) in
  let undefined :=
    Legacy._check_undefined_variables h (blank (project_root a))
      (Legacy._get_python_files h) in
  run "comprehensive" = fst (Legacy.analyze_all h (a, sys_path))
  /\ match run "imports" with
     | Raises e => fst (Legacy.analyze_all h (a, sys_path)) = Raises e
     | Returns ri =>
         exists rs rp rm,
           run "syntax" = Returns rs /\ run "parameters" = Returns rp
           /\ run "methods" = Returns rm
           /\ fst (Legacy.analyze_all h (a, sys_path))
              = Returns (Result
                  (res_errors rs ++ res_errors ri ++ res_errors rp
                   ++ errors undefined ++ res_errors rm)
                  (res_warnings rs ++ res_warnings ri ++ res_warnings rp
                   ++ warnings undefined ++ res_warnings rm))
     end.
Proof.
  cbv zeta.
  pose proof (legacy_specific_unfold h a sys_path) as Hruns. cbv zeta in Hruns.
  destruct Hruns as (Hs & Hp & Hm & Hc & Hi).
  split; [exact Hc|].
  rewrite Hi, legacy_all_unfold. cbv zeta.
  set (files := Legacy._get_python_files h) in *.
  change (reset a) with (blank (project_root a)) in *.
  set (r := project_root a) in *.
  pose proof (appends_file_by_file _ (legacy_syntax_appends h)
              : file_by_file (Legacy._check_syntax_errors h)) as Fs.
  pose proof (appends_file_by_file _ (legacy_parameters_appends h)
              : file_by_file (Legacy._check_parameter_mismatches h)) as Fp.
  pose proof (appends_file_by_file _ (legacy_undefined_appends h)
              : file_by_file (Legacy._check_undefined_variables h)) as Fv.
  pose proof (appends_file_by_file _ (legacy_methods_appends h)
              : file_by_file (Legacy._check_class_method_signatures h)) as Fm.
  destruct (Fs (blank r) files) as (Rs & _ & _).
  set (a1 := Legacy._check_syntax_errors h (blank r) files) in *.
  rewrite (legacy_imports_append h a1 sys_path files). rewrite Rs.
  cbn [blank project_root]. fold (blank r).
  destruct (Legacy._check_import_errors h (blank r, sys_path) files)
    as [[b sys_path2] [e|]] eqn:Himports; cbn [lift fst snd].
  - reflexivity.
  - do 3 eexists. split; [exact Hs|]. split; [exact Hp|]. split; [exact Hm|].
    cbn [fst]. f_equal. unfold result_of.
    destruct (Fp (extend a1 b) files) as (Rp & Ep & Wp).
    destruct (Fv (Legacy._check_parameter_mismatches h (extend a1 b) files) files)
      as (Rv & Ev & Wv).
    destruct (Fm (Legacy._check_undefined_variables h
                    (Legacy._check_parameter_mismatches h (extend a1 b) files)
                    files) files) as (Rm & Em & Wm).
    destruct (Fp (blank r) files) as (_ & Ep0 & Wp0).
    destruct (Fv (blank r) files) as (_ & Ev0 & Wv0).
    destruct (Fm (blank r) files) as (_ & Em0 & Wm0).
    rewrite Em, Wm, Rv, Ev, Wv, Rp, Ep, Wp, Em0, Wm0, Ev0, Wv0, Ep0, Wp0.
    cbn [extend project_root errors warnings blank]. rewrite Rs.
    cbn [app]. rewrite <- !app_assoc. reflexivity.
Qed.

End CompositionClaims.

(** ** Reports *)

Module ReportClaims.
Import Report SyntaxSpec.









End ReportClaims.

(** ** Import passes *)

Module ImportDetailClaims.
Import ImportDetail.

Lemma for_each_app {X : Type} (body : pstate -> X -> pstate * option string)
  (xs ys : list X) (s : pstate) :
  for_each body s (xs ++ ys)
  = match for_each body s xs with
    | (s', None) => for_each body s' ys
    | (s', Some e) => (s', Some e)
    end.
Proof.
  revert s. induction xs as [|x xs IH]; intros s; [reflexivity|].
  simpl. destruct (body s x) as [s' [e|]]; [reflexivity|]. apply IH.
Qed.

Lemma for_each_flat_map {X Y : Type}
  (body : pstate -> Y -> pstate * option string) (g : X -> list Y)
  (xs : list X) (s : pstate) :
  for_each (fun s x => for_each body s (g x)) s xs
  = for_each body s (flat_map g xs).
Proof.
  revert s. induction xs as [|x xs IH]; intros s; [reflexivity|].
  cbn [for_each flat_map]. rewrite for_each_app.
  destruct (for_each body s (g x)) as [s' [e|]]; [reflexivity|]. apply IH.
Qed.

Lemma for_each_ext {X : Type} (f g : pstate -> X -> pstate * option string)
  (xs : list X) (s : pstate) :
  (forall s x, f s x = g s x) -> for_each f s xs = for_each g s xs.
Proof.
  intros Hfg. revert s. induction xs as [|x xs IH]; intros s; [reflexivity|].
  simpl. rewrite Hfg. destruct (g s x) as [s' [e|]]; [reflexivity|]. apply IH.
Qed.

Lemma check_import_node_modules h file s n :
  Enhanced.check_import_node h file s n
  = for_each (Enhanced._check_module_exists h file) s (imported_modules n).
Proof.
  destruct n as [|names|module names| | | | | |]; try reflexivity.
  destruct module as [module|]; [|reflexivity]. simpl.
  destruct (String.eqb module ""); [reflexivity|]. simpl.
  destruct (Enhanced._check_module_exists h file s module) as [s' [e|]];
    reflexivity.
Qed.

(** The two nested loops of the enhanced import pass, over the nodes and
    over the names of an [import], are one loop over the module names. *)
Lemma import_nodes_module_checks (h : host) (file : string) (s : pstate)
  (nodes : list node) :
  for_each (Enhanced.check_import_node h file) s nodes
  = for_each (Enhanced._check_module_exists h file) s
      (flat_map imported_modules nodes).
Proof.
  rewrite <- for_each_flat_map. apply for_each_ext.
  intros s' n. apply check_import_node_modules.
Qed.

(** X14.  For a file that parses, the enhanced import pass is the sequence of
    module checks for the names its import statements ask for, in walk
    order, stopping at the first check an exception escapes from; for a
    file that does not parse it is one warning and no import is tried. *)
Theorem enhanced_import_file_checks (h : host) (s : pstate) (py_file : path) :
  let file := str_path (project_root (fst s)) py_file in
  Enhanced.check_import_file h s py_file
  = match parse_file h file with
    | inl tree =>
        for_each (Enhanced._check_module_exists h file) s
          (flat_map imported_modules (walk tree))
    | inr e =>
        ((add_warning (fst s)
            ("Could not check imports for " +:+ file +:+ ": "
             +:+ str_exn Enhanced.unknown e), snd s), None)
    end.
Proof.
  unfold Enhanced.check_import_file. cbv zeta.
  destruct (parse_file h _) as [tree|e]; [|reflexivity].
  apply import_nodes_module_checks.
Qed.

(** What a loop adds to a bucket comes from one of its iterations, as long
    as the iterations keep the root and [sys.path]. *)
Lemma for_each_sound {X : Type} (bucket : analyzer -> list string)
  (body : pstate -> X -> pstate * option string) (Q : X -> string -> Prop)
  (fr : string * list string) :
  (forall s x, PathSpec.frame s = fr ->
     PathSpec.frame (fst (body s x)) = fr
     /\ forall e, In e (bucket (fst (fst (body s x)))) ->
                  In e (bucket (fst s)) \/ Q x e) ->
  forall xs s, PathSpec.frame s = fr ->
    PathSpec.frame (fst (for_each body s xs)) = fr
    /\ forall e, In e (bucket (fst (fst (for_each body s xs)))) ->
                 In e (bucket (fst s)) \/ exists x, In x xs /\ Q x e.
Proof.
  intros Hbody. induction xs as [|x xs IH]; intros s Hs.
  - simpl. split; [exact Hs|]. intros e He. left; exact He.
  - cbn [for_each]. destruct (Hbody s x Hs) as (Hframe & Hstep).
    destruct (body s x) as [s' [exc|]]; cbn [fst] in *.
    + split; [exact Hframe|]. intros e He.
      destruct (Hstep e He) as [H|H]; [left; exact H|].
      right. exists x. split; [left; reflexivity|exact H].
    + destruct (IH s' Hframe) as (Hframe' & Hrest). split; [exact Hframe'|].
      intros e He. destruct (Hrest e He) as [H|(y & Hy & HQ)].
      * destruct (Hstep e H) as [H'|H']; [left; exact H'|].
        right. exists x. split; [left; reflexivity|exact H'].
      * right. exists y. split; [right; exact Hy|exact HQ].
Qed.

Lemma in_snoc {A : Type} (x y : A) (l : list A) :
  In x (l ++ [y]) -> In x l \/ x = y.
Proof. rewrite in_app_iff. simpl. intuition. Qed.

Lemma enhanced_module_sound h file a sys_path m :
  let s := (a, sys_path) in
  PathSpec.frame (fst (Enhanced._check_module_exists h file s m)) = PathSpec.frame s
  /\ forall e,
       In e (errors (fst (fst (Enhanced._check_module_exists h file s m)))) ->
       In e (errors a) \/ cannot_import h (project_root a) sys_path file m e.
Proof.
  cbv zeta. split; [apply PathClaims.enhanced_module_frame|].
  unfold Enhanced._check_module_exists, cannot_import, searched.
  replace (if negb (Py.mem (project_root a) sys_path)
           then project_root a :: sys_path else sys_path)
    with (if Py.mem (project_root a) sys_path
          then sys_path else project_root a :: sys_path)
    by (destruct (Py.mem _ _); reflexivity).
  destruct (import_module h _ m) as [|msg|msg|msg] eqn:Himport; cbn [fst];
    try (intros e He; left; exact He).
  destruct (Py.contains "." m) eqn:Hdot; cbn [orb fst];
    [intros e He; left; exact He|].
  destruct (Py.startswith m "_") eqn:Hunder; cbn [fst];
    [intros e He; left; exact He|].
  intros e He. apply in_snoc in He as [He| ->]; [left; exact He|].
  right. eauto 10.
Qed.

(** X15.  Every error the enhanced import pass adds is "Cannot import 'm' in
    file" for a discovered file that parses and a module name [m] that one
    of its import statements asks for, where importing [m] with the root on
    the search path raised an [ImportError] and [m] has neither a dot nor a
    leading underscore. *)
Theorem enhanced_import_errors_sound (h : host) (a : analyzer)
  (sys_path : list string) (python_files : list path) (e : string) :
  In e (errors (fst (fst (Enhanced._check_import_errors h (a, sys_path)
                             python_files)))) ->
  In e (errors a)
  \/ exists py_file tree m,
       In py_file python_files
       /\ parse_file h (str_path (project_root a) py_file) = inl tree
       /\ In m (flat_map imported_modules (walk tree))
       /\ cannot_import h (project_root a) sys_path
            (str_path (project_root a) py_file) m e.
Proof.
  unfold Enhanced._check_import_errors.
  set (fr := (project_root a, sys_path)).
  intros He.
  apply (for_each_sound errors (Enhanced.check_import_file h)
           (fun py_file e =>
              exists tree m,
                parse_file h (str_path (project_root a) py_file) = inl tree
                /\ In m (flat_map imported_modules (walk tree))
                /\ cannot_import h (project_root a) sys_path
                     (str_path (project_root a) py_file) m e)
           fr) in He; [|clear e He|reflexivity].
  - destruct He as [He|(py_file & Hin & tree & m & Hrest)]; [left; exact He|].
    right. exists py_file, tree, m. split; [exact Hin|exact Hrest].
  - intros [a' sp'] py_file Hs. unfold PathSpec.frame, fr in Hs.
    cbn [fst snd] in Hs. injection Hs as Hroot Hpath. subst sp'.
    split; [rewrite PathClaims.enhanced_file_frame; unfold PathSpec.frame, fr;
            cbn [fst snd]; rewrite Hroot; reflexivity|].
    unfold Enhanced.check_import_file. cbv zeta. cbn [fst snd]. rewrite Hroot.
    destruct (parse_file h _) as [tree|exc] eqn:Hparse;
      [|intros e He; left; exact He].
    rewrite import_nodes_module_checks. intros e He.
    apply (for_each_sound errors
             (Enhanced._check_module_exists h (str_path (project_root a) py_file))
             (fun m e => cannot_import h (project_root a) sys_path
                           (str_path (project_root a) py_file) m e)
             fr) in He; [|clear e He|unfold PathSpec.frame, fr; cbn [fst snd];
                                      rewrite Hroot; reflexivity].
    + destruct He as [He|(m & Hm & Hc)]; [left; exact He|].
      right. exists tree, m. auto.
    + intros [a2 sp2] m Hs. unfold PathSpec.frame, fr in Hs.
      cbn [fst snd] in Hs. injection Hs as Hroot2 Hpath2. subst sp2.
      destruct (enhanced_module_sound h (str_path (project_root a) py_file)
                  a2 sys_path m) as (Hf & Hsound).
      split; [rewrite Hf; unfold PathSpec.frame, fr; cbn [fst snd];
              rewrite Hroot2; reflexivity|].
      rewrite Hroot2 in Hsound. exact Hsound.
Qed.

Lemma legacy_file_sound h a sys_path file_path :
  let r := fst (fst (Legacy.check_import_file h (a, sys_path) file_path)) in
  (forall e, In e (errors r) ->
     In e (errors a) \/ import_error h (project_root a) sys_path file_path e)
  /\ (forall w, In w (warnings r) ->
       In w (warnings a)
       \/ missing_dependency h (project_root a) sys_path file_path w).
Proof.
  cbv zeta. unfold Legacy.check_import_file, import_error, missing_dependency,
    ImportSpec.skipped.
  destruct (_ || _)%bool; [split; intros x Hx; left; exact Hx|].
  destruct (import_module h sys_path _) as [|msg|msg|msg] eqn:Himport;
    cbn [fst]; try (split; intros x Hx; left; exact Hx).
  - destruct (Py.contains "No module named" msg) eqn:Hno; cbn [fst].
    + destruct (existsb _ Legacy.optional_packages) eqn:Hopt; cbn [fst];
        split; intros x Hx; try (left; exact Hx).
      * apply in_snoc in Hx as [Hx| ->]; [left; exact Hx|].
        right. split; [reflexivity|]. exists msg. auto.
      * apply in_snoc in Hx as [Hx| ->]; [left; exact Hx|].
        right. split; [reflexivity|]. exists msg. split; [reflexivity|].
        right. split; [reflexivity|]. rewrite ?Hno, ?Hopt. reflexivity.
    + split; intros x Hx; try (left; exact Hx).
      apply in_snoc in Hx as [Hx| ->]; [left; exact Hx|].
      right. split; [reflexivity|]. exists msg. split; [reflexivity|].
      right. split; [reflexivity|]. rewrite ?Hno. reflexivity.
  - split; intros x Hx; try (left; exact Hx).
    apply in_snoc in Hx as [Hx| ->]; [left; exact Hx|].
    right. split; [reflexivity|]. exists msg. split; [reflexivity|].
    left. reflexivity.
Qed.

(** The path one iteration of the legacy loop hands to the next. *)
Lemma legacy_file_path h a sys_path file_path :
  snd (fst (Legacy.check_import_file h (a, sys_path) file_path))
  = if ImportSpec.skipped file_path then sys_path
    else path_after_import h sys_path (Legacy.module_name_of file_path).
Proof.
  unfold Legacy.check_import_file, ImportSpec.skipped.
  destruct (_ || _)%bool; [reflexivity|]. cbv zeta.
  destruct (import_module h sys_path _); try reflexivity.
  destruct (Py.contains "No module named" _); [|reflexivity].
  destruct (existsb _ _); reflexivity.
Qed.

(** What the legacy loop adds to a bucket comes from one of the files,
    imported under the path the loop had reached. *)
Lemma legacy_loop_sound h (bucket : analyzer -> list string)
  (Q : string -> list string -> path -> string -> Prop) :
  (forall a sys_path f x,
     In x (bucket (fst (fst (Legacy.check_import_file h (a, sys_path) f)))) ->
     In x (bucket a) \/ Q (project_root a) sys_path f x) ->
  forall files a sys_path x,
    In x (bucket (fst (fst (for_each (Legacy.check_import_file h)
                              (a, sys_path) files)))) ->
    In x (bucket a)
    \/ exists earlier f later,
         files = (earlier ++ f :: later)%list
         /\ Q (project_root a) (path_reached h sys_path earlier) f x.
Proof.
  intros Hstep. induction files as [|f files IH]; intros a sys_path x Hx;
    [left; exact Hx|].
  cbn [for_each] in Hx.
  pose proof (Hstep a sys_path f x) as Hf.
  pose proof (legacy_file_path h a sys_path f) as Hpath.
  pose proof (PathClaims.legacy_file_root h (a, sys_path) f) as Hroot.
  destruct (Legacy.check_import_file h (a, sys_path) f) as [[a' sp'] [exc|]];
    cbn [fst snd] in *.
  - destruct (Hf Hx) as [H|H]; [left; exact H|].
    right. exists [], f, files. split; [reflexivity|exact H].
  - apply IH in Hx as [Hx|(earlier & g & later & -> & HQ)].
    + destruct (Hf Hx) as [H|H]; [left; exact H|].
      right. exists [], f, files. split; [reflexivity|exact H].
    + right. exists (f :: earlier), g, later. split; [reflexivity|].
      cbn [path_reached]. rewrite <- Hpath, <- Hroot. exact HQ.
Qed.

(** Where the imports leave the path alone, the loop reaches each file
    with the path it started from. *)
Lemma path_reached_alone h sys_path files :
  (forall f, In f files -> PathSpec.leaves_path_alone h sys_path f) ->
  forall earlier f later,
    files = (earlier ++ f :: later)%list ->
    path_reached h sys_path earlier = sys_path.
Proof.
  intros Halone earlier. revert files Halone.
  induction earlier as [|g earlier IH]; intros files Halone f later Hfiles;
    [reflexivity|].
  subst files. cbn [path_reached].
  assert (Hg : (if ImportSpec.skipped g then sys_path
                else path_after_import h sys_path (Legacy.module_name_of g))
               = sys_path).
  { destruct (ImportSpec.skipped g) eqn:Hskip; [reflexivity|].
    apply (Halone g); [left; reflexivity|exact Hskip]. }
  rewrite Hg. apply (IH (earlier ++ f :: later)%list) with (f := f) (later := later);
    [|reflexivity].
  intros f' Hin. apply Halone. right; exact Hin.
Qed.

Lemma enhanced_import_errors_sound_witness :
  let h := ImportSpec.failing_host (RaisesImportError "No module named 'pandas'") in
  let e := "Cannot import 'pandas' in /p/tool.py" in
  In e (errors (blank "/p"))
  \/ exists py_file tree m,
       In py_file [["tool.py"]]
       /\ parse_file h (str_path (project_root (blank "/p")) py_file) = inl tree
       /\ In m (flat_map imported_modules (walk tree))
       /\ cannot_import h (project_root (blank "/p")) []
            (str_path (project_root (blank "/p")) py_file) m e.
Proof.
  apply (enhanced_import_errors_sound
           (ImportSpec.failing_host (RaisesImportError "No module named 'pandas'"))
           (blank "/p") [] [["tool.py"]]).
  vm_compute. left. reflexivity.
Defined.

Lemma legacy_imports_analyzer h a sys_path files :
  fst (fst (Legacy._check_import_errors h (a, sys_path) files))
  = fst (fst (for_each (Legacy.check_import_file h)
                (a, project_root a :: sys_path) files)).
Proof.
  unfold Legacy._check_import_errors.
  destruct (for_each _ _ files) as [[a' sp'] [e|]]; [reflexivity|].
  destruct (Py.mem _ _); reflexivity.
Qed.

(** X16.  Every error the legacy import pass adds is "IMPORT ERROR in file: msg"
    for a listed file that is not skipped and whose import, under the
    dotted module name of its path and with the search path the loop had
    reached (the root in front, then what the modules imported before
    have made of it), raised an exception that is not a missing optional
    package; every warning it adds is "MISSING DEPENDENCY in file: msg" for
    such a file whose import hit a missing optional package.  Where the
    imported modules leave [sys.path] alone, that search path is the
    original one with the root in front. *)
Theorem legacy_import_findings_sound (h : host) (a : analyzer)
  (sys_path : list string) (files : list path) :
  let r := fst (fst (Legacy._check_import_errors h (a, sys_path) files)) in
  let searched := path_reached h (project_root a :: sys_path) in
  (forall e, In e (errors r) ->
     In e (errors a)
     \/ exists earlier file_path later,
          files = (earlier ++ file_path :: later)%list
          /\ import_error h (project_root a) (searched earlier) file_path e)
  /\ (forall w, In w (warnings r) ->
       In w (warnings a)
       \/ exists earlier file_path later,
            files = (earlier ++ file_path :: later)%list
            /\ missing_dependency h (project_root a) (searched earlier)
                 file_path w)
  /\ ((forall file_path, In file_path files ->
         PathSpec.leaves_path_alone h (project_root a :: sys_path) file_path) ->
      forall earlier file_path later,
        files = (earlier ++ file_path :: later)%list ->
        searched earlier = project_root a :: sys_path).
Proof.
  cbv zeta. rewrite legacy_imports_analyzer.
  split; [|split].
  - intros e He.
    apply (legacy_loop_sound h errors
             (fun root sp f e => import_error h root sp f e)) in He;
      [exact He|].
    intros a' sp f x. apply (legacy_file_sound h a' sp f).
  - intros w Hw.
    apply (legacy_loop_sound h warnings
             (fun root sp f w => missing_dependency h root sp f w)) in Hw;
      [exact Hw|].
    intros a' sp f x. apply (legacy_file_sound h a' sp f).
  - apply path_reached_alone.
Qed.

Lemma rfind_dot_app s1 s2 :
  forall i found,
    Py.rfind_dot (s1 +:+ s2) i found
    = Py.rfind_dot s2 (i + String.length s1)%nat (Py.rfind_dot s1 i found).
Proof.
  induction s1 as [|c s1 IH]; intros i found.
  - simpl. rewrite Nat.add_0_r. reflexivity.
  - change (String c s1 +:+ s2) with (String c (s1 +:+ s2)).
    cbn [Py.rfind_dot String.length]. rewrite IH. f_equal. lia.
Qed.

Lemma length_append s1 s2 :
  String.length (s1 +:+ s2) = (String.length s1 + String.length s2)%nat.
Proof.
  induction s1 as [|c s1 IH]; [reflexivity|].
  change (String c s1 +:+ s2) with (String c (s1 +:+ s2)).
  simpl. rewrite IH. reflexivity.
Qed.

Lemma substring_prefix s1 s2 :
  String.substring 0 (String.length s1) (s1 +:+ s2) = s1.
Proof.
  induction s1 as [|c s1 IH].
  - simpl. destruct s2; reflexivity.
  - change (String c s1 +:+ s2) with (String c (s1 +:+ s2)).
    simpl. rewrite IH. reflexivity.
Qed.

Lemma stem_py (name : string) : name <> "" -> Py.stem (name +:+ ".py") = name.
Proof.
  intros Hname. unfold Py.stem. rewrite rfind_dot_app. simpl Py.rfind_dot.
  rewrite length_append. simpl String.length.
  assert (Hlen : (0 < String.length name)%nat).
  { destruct name; [congruence|simpl; lia]. }
  replace (Nat.ltb 0 (String.length name)) with true
    by (symmetry; apply Nat.ltb_lt; exact Hlen).
  replace (Nat.ltb (String.length name) (String.length name + 3 - 1)) with true
    by (symmetry; apply Nat.ltb_lt; lia).
  simpl. apply substring_prefix.
Qed.

(** X17.  The module the legacy import pass imports for the file
    [dirs/name.py] is the dotted path [dirs.name]: the directories and the
    file name without its [.py] suffix, joined by dots. *)
Theorem legacy_module_name (dirs : list string) (name : string) :
  name <> "" ->
  Legacy.module_name_of (dirs ++ [name +:+ ".py"])%list
  = Py.join "." (dirs ++ [name])%list.
Proof.
  intros Hname. unfold Legacy.module_name_of.
  rewrite removelast_last, last_last, stem_py by exact Hname. reflexivity.
Qed.

Lemma legacy_module_name_witness :
  Legacy.module_name_of (["src"; "core"] ++ ["server" +:+ ".py"])%list
  = Py.join "." (["src"; "core"] ++ ["server"])%list.
Proof.
  apply (legacy_module_name ["src"; "core"] "server"). discriminate.
Defined.

End ImportDetailClaims.
